(** * GHOST phantom utilities: a shallow embedding of [ghost/utils.py] and
    [ghost/calib.py], and the properties of the specification checked on it.

    Number models.  The Python code computes with numpy [int64] and [float64]
    values.  These models are used, each where it fits the code it
    embeds:
    - [make_circle] (integer index grids, one square root and one comparison
      per cell) and [get_ellipse_params] (products, sums, square roots and
      quotients) are embedded on the kernel's IEEE-754 binary64 numbers
      ([PrimFloat.float]) and on [Z] with the 64-bit wrap-around written out;
    - [gen_circle] and [get_ellipse] call [cos] and [sin]; they are embedded
      on the real numbers, the arithmetic of float64 idealised;
    - [transform_points] only subtracts; it is embedded over an arbitrary
      number type with a subtraction;
    - [fit_ellipse_svd] and [fit_ellipse_eig] are embedded on the real
      numbers, with [np.linalg.svd], [np.linalg.inv] and [np.linalg.eig] as
      parameters; what numpy documents of the three routines is a
      hypothesis where a property needs it.

    What the repository calls from other libraries and the embedding does
    not define is a parameter: [np.arctan2], the two conic fitters (they
    are [np.linalg.svd] and [np.linalg.eig] applied to the design matrix),
    and [ants.apply_transforms_to_points]. *)

From Stdlib Require Import String ZArith QArith Reals Floats List Bool Lia Lra.
From Stdlib Require Uint63.
Import ListNotations.

Set Implicit Arguments.

(** ** Python exceptions and results *)

Module Py.

(** A value formatted into an f-string. *)
Inductive fvalue :=
| FStr (s : string)           (* a str *)
| FNum (q : Q)                (* an int or a float *)
| FDictKeys (ks : list Q).    (* a dict_keys view *)

(** An f-string: literal text and formatted values, in order. *)
Inductive fragment :=
| Lit (s : string)
| Fmt (v : fvalue).

Definition message := list fragment.

(** The exceptions the embedded functions raise. *)
Inductive exn :=
| ValueError (what : string)
| TypeError (what : string)
| IndexError (what : string)
| KeyError (msg : message)
| UnboundLocalError (variable : string)
| AttributeError (what : string)
| Foreign (what : string).    (* raised inside an external collaborator *)

(** Python's built-in exception classes, with their base class. *)
Inductive pyclass :=
| cException | cLookupError | cKeyError | cIndexError
| cValueError | cTypeError | cNameError | cUnboundLocalError | cAttributeError.

Definition class_of (e : exn) : pyclass :=
  match e with
  | ValueError _ => cValueError
  | TypeError _ => cTypeError
  | IndexError _ => cIndexError
  | KeyError _ => cKeyError
  | UnboundLocalError _ => cUnboundLocalError
  | AttributeError _ => cAttributeError
  | Foreign _ => cException
  end.

Definition base (c : pyclass) : option pyclass :=
  match c with
  | cException => None
  | cLookupError => Some cException
  | cKeyError => Some cLookupError
  | cIndexError => Some cLookupError
  | cValueError => Some cException
  | cTypeError => Some cException
  | cNameError => Some cException
  | cUnboundLocalError => Some cNameError
  | cAttributeError => Some cException
  end.

Definition pyclass_eqb (a b : pyclass) : bool :=
  match a, b with
  | cException, cException | cLookupError, cLookupError
  | cKeyError, cKeyError | cIndexError, cIndexError
  | cValueError, cValueError | cTypeError, cTypeError
  | cNameError, cNameError | cUnboundLocalError, cUnboundLocalError
  | cAttributeError, cAttributeError => true
  | _, _ => false
  end.

(** [issubclass c d], along the chain of base classes (of depth at most 3). *)
Fixpoint issubclass_fuel (fuel : nat) (c d : pyclass) : bool :=
  pyclass_eqb c d ||
  match fuel with
  | O => false
  | S k => match base c with
           | Some b => issubclass_fuel k b d
           | None => false
           end
  end.

Definition issubclass := issubclass_fuel 3.

Definition isinstance (e : exn) (c : pyclass) : bool := issubclass (class_of e) c.

(** The error kinds of the specification. *)
Inductive error_kind := LookupError | DegenerateConic | InvalidArgument | NumericalFailure.

(** The kind an exception belongs to: a malformed argument is reported by
    [ValueError] or [TypeError], a missing key or index by a subclass of
    [LookupError].  No exception of the code stands for a degenerate conic,
    and [UnboundLocalError] (a [NameError]) reports a fault of the program,
    not of its argument. *)
Definition kind_of (e : exn) : option error_kind :=
  if isinstance e cLookupError then Some LookupError
  else if isinstance e cValueError || isinstance e cTypeError then Some InvalidArgument
  else None.

(** The outcome of a call: a value, or an exception. *)
Inductive result (A : Type) :=
| Returned (a : A)
| Raised (e : exn).
Arguments Raised {A} e.

Definition bind {A B} (r : result A) (k : A -> result B) : result B :=
  match r with
  | Returned a => k a
  | Raised e => Raised e
  end.

Definition returns {A} (r : result A) : bool :=
  match r with Returned _ => true | Raised _ => false end.

End Py.
Import Py.

Notation "x <- r ;; k" := (bind r (fun x => k))
  (at level 61, r at next level, right associativity).

(** ** numpy arrays of two dimensions *)

Module Np.

Record ndarray (A : Type) := mk_ndarray { shape : nat * nat; rows : list (list A) }.

(** [np.arange(start, stop)] on integers. *)
Definition arange (start stop : Z) : list Z :=
  map (fun k => (start + Z.of_nat k)%Z) (seq 0 (Z.to_nat (stop - start))).

(** Two's-complement wrap-around of [int64] arithmetic. *)
Definition wrap64 (z : Z) : Z := ((z + 2 ^ 63) mod 2 ^ 64 - 2 ^ 63)%Z.

(** [np.meshgrid(xs, ys)], with the default [indexing='xy']: both arrays
    have shape [(len(ys), len(xs))]. *)
Definition meshgrid (A : Type) (xs ys : list A) : ndarray A * ndarray A :=
  (mk_ndarray (length ys, length xs) (map (fun _ => xs) ys),
   mk_ndarray (length ys, length xs) (map (fun y => map (fun _ => y) xs) ys)).

(** Element-wise operations on arrays of one shape. *)
Definition map1 (A B : Type) (f : A -> B) (a : ndarray A) : ndarray B :=
  mk_ndarray (shape a) (map (map f) (rows a)).

Definition map2 (A B C : Type) (f : A -> B -> C) (a : ndarray A) (b : ndarray B) : ndarray C :=
  mk_ndarray (shape a)
    (map (fun rr => map (fun c => f (fst c) (snd c)) (combine (fst rr) (snd rr)))
         (combine (rows a) (rows b))).

(** [np.zeros(shape)]. *)
Definition zeros (sh : nat * nat) : ndarray float :=
  mk_ndarray sh (repeat (repeat 0%float (snd sh)) (fst sh)).

(** [arr[mask] = v] for a boolean array [mask] of two dimensions.  numpy
    compares the two shapes on every axis along which the mask is not
    empty and raises [IndexError] at a difference; a mask that is empty
    selects no cell. *)
Definition axis_matches (size bool_size : nat) : bool :=
  ((bool_size =? 0) || (size =? bool_size))%nat.

Definition boolean_index_mismatch : exn :=
  IndexError "boolean index did not match indexed array".

Definition setitem_mask (A : Type) (arr : ndarray A) (mask : ndarray bool) (v : A)
  : result (ndarray A) :=
  let '(n0, n1) := shape arr in
  let '(m0, m1) := shape mask in
  if negb (axis_matches n0 m0 && axis_matches n1 m1) then Raised boolean_index_mismatch
  else if ((n0 =? m0) && (n1 =? m1))%nat
       then Returned (map2 (fun a (m : bool) => if m then v else a) arr mask)
       else Returned arr.

(** Conversion of an [int64] to float64, rounding to nearest. *)
Definition float_of_int64 (z : Z) : float :=
  if (z =? - 2 ^ 63)%Z then (-9223372036854775808)%float
  else if (z <? 0)%Z then (- PrimFloat.of_uint63 (Uint63.of_Z (- z)))%float
       else PrimFloat.of_uint63 (Uint63.of_Z z).

End Np.
Import Np.

(** ** [ghost/utils.py]: masks *)

Module Mask.

(** The index axis [np.arange(-n//2, n//2) + c] of [make_circle]; [-n//2]
    is Python's [(-n)//2], the floor of [-n/2].  The sum is taken in
    [int64] and wraps around.  This is the code for a Python integer [c]
    that fits [int64]; numpy refuses any other [c] with [OverflowError],
    and the properties of the masks are stated for the [c] that fit. *)
Definition axis (n : nat) (c : Z) : list Z :=
  map (fun v => wrap64 (v + c)) (arange ((- Z.of_nat n) / 2) (Z.of_nat n / 2)).

(** [np.sqrt(X**2 + Y**2)] at one cell: the squares and the sum are
    [int64], the square root is taken in float64. *)
Definition dist (x y : Z) : float :=
  PrimFloat.sqrt (float_of_int64 (wrap64 (wrap64 (x * x) + wrap64 (y * y)))).

(** The array [D] of [make_circle]: the mesh of the two axes, and the
    distance at each of its cells. *)
Definition distances (img_shape : nat * nat) (center : Z * Z) : ndarray float :=
  let '(nx, ny) := img_shape in
  let '(X, Y) := meshgrid (axis nx (fst center)) (axis ny (snd center)) in
  map2 dist X Y.

(** [make_circle(img_shape, radius, center)], with an integral [center]
    whose coordinates fit [int64]. *)
Definition make_circle (img_shape : nat * nat) (radius : float) (center : Z * Z)
  : result (ndarray float) :=
  let D := distances img_shape center in
  let circle := zeros img_shape in
  setitem_mask circle (map1 (fun d => (d <? radius)%float) D) 1%float.

(** The number of cells of a mask that hold 1. *)
Definition count_ones (m : ndarray float) : nat :=
  length (filter (fun v => (v =? 1)%float) (concat (rows m))).

(** The grid points of [make_circle], row by row: the cell at row [i],
    column [j] stands at [(xs[j], ys[i])]. *)
Definition grid_points (img_shape : nat * nat) (center : Z * Z) : list (Z * Z) :=
  concat (map (fun y => map (fun x => (x, y)) (axis (fst img_shape) (fst center)))
              (axis (snd img_shape) (snd center))).

(** The analytic count: the grid points at Euclidean distance strictly
    less than an integer [radius] from the centre, decided exactly on the
    integers by [x^2 + y^2 < radius^2]. *)
Definition strictly_inside (radius : Z) (p : Z * Z) : bool :=
  (fst p * fst p + snd p * snd p <? radius * radius)%Z.

Definition on_boundary (radius : Z) (p : Z * Z) : bool :=
  (fst p * fst p + snd p * snd p =? radius * radius)%Z.

Definition analytic_count (img_shape : nat * nat) (center : Z * Z) (radius : Z) : nat :=
  length (filter (strictly_inside radius) (grid_points img_shape center)).

End Mask.

(** ** [ghost/utils.py]: point sets *)

Module Points.

(** A table of points with the columns [x], [y] and [z] (a pandas
    DataFrame with the default index [0, 1, ...]), kept row by row. *)
Definition DataFrame (A : Type) := list (A * A * A).

Definition column_x (A : Type) (df : DataFrame A) : list A := map (fun p => fst (fst p)) df.
Definition column_y (A : Type) (df : DataFrame A) : list A := map (fun p => snd (fst p)) df.
Definition column_z (A : Type) (df : DataFrame A) : list A := map (fun p => snd p) df.

(** [pd.DataFrame.from_dict({'x': xs, 'y': ys, 'z': zs})]. *)
Definition from_dict (A : Type) (xs ys zs : list A) : result (DataFrame A) :=
  if ((length xs =? length ys) && (length ys =? length zs))%nat
  then Returned (map (fun p => (fst p, fst (snd p), snd (snd p))) (combine xs (combine ys zs)))
  else Raised (ValueError "All arrays must be of the same length").

(** [l[-1] = v] on a list that is not empty. *)
Definition set_last (A : Type) (l : list A) (v : A) : list A :=
  match l with
  | [] => []
  | _ :: _ => removelast l ++ [v]
  end.

(** [np.linspace(start, stop, num)], with numpy's default [endpoint=True]:
    [num] samples [k * step + start] with [step = (stop - start) / (num - 1)],
    the last one overwritten with [stop]; a negative [num] is refused. *)
Definition linspace_samples (start stop : R) (n : nat) : list R :=
  let div := (n - 1)%nat in
  let delta := (stop - start)%R in
  let y := map INR (seq 0 n) in
  let y := if (0 <? div)%nat
           then map (fun v => v * (delta / INR div) + start)%R y
           else map (fun v => v * delta + start)%R y in
  if (1 <? n)%nat then set_last y stop else y.

Definition linspace (start stop : R) (num : Z) : result (list R) :=
  if (num <? 0)%Z then Raised (ValueError "Number of samples must be non-negative")
  else Returned (linspace_samples start stop (Z.to_nat num)).

(** [gen_circle(center, r, axis, npoints=100)].  An [axis] that is none of
    ['x'], ['y'], ['z'] leaves [x], [y] and [z] unassigned, and the
    dictionary display then fails at its first use of [x]. *)
Definition gen_circle (center : R * R * R) (r : R) (axis : string) (npoints : Z)
  : result (DataFrame R) :=
  t <- linspace 0 1 npoints ;;
  let '(c0, c1, c2) := center in
  let xyz :=
    if (axis =? "x")%string then
      Some (map (fun _ => 1 * c0)%R t,
            map (fun v => r * cos (v * 2 * PI) + c1)%R t,
            map (fun v => r * sin (v * 2 * PI) + c2)%R t)
    else if (axis =? "y")%string then
      Some (map (fun v => r * cos (v * 2 * PI) + c0)%R t,
            map (fun _ => 1 * c1)%R t,
            map (fun v => r * sin (v * 2 * PI) + c2)%R t)
    else if (axis =? "z")%string then
      Some (map (fun v => r * sin (v * 2 * PI) + c0)%R t,
            map (fun v => r * cos (v * 2 * PI) + c1)%R t,
            map (fun _ => 1 * c2)%R t)
    else None in
  match xyz with
  | Some (x, y, z) => from_dict (c0 :: x) (c1 :: y) (c2 :: z)
  | None => Raised (UnboundLocalError "x")
  end.

Definition npoints_default : Z := 100.

(** [get_ellipse(a, b, theta, x0, y0, n=100)]. *)
Definition get_ellipse (a b theta x0 y0 : R) (n : Z) : result (list R * list R) :=
  t01 <- linspace 0 1 n ;;
  let t := map (fun v => v * PI * 2)%R t01 in
  let x_el := map (fun t => a * cos t * cos theta - b * sin theta * sin t + x0)%R t in
  let y_el := map (fun t => a * sin theta * cos t + b * cos theta * sin t + y0)%R t in
  Returned (x_el, y_el).

(** Euclidean distance between two points. *)
Definition distance (p q : R * R * R) : R :=
  let '(px, py, pz) := p in
  let '(qx, qy, qz) := q in
  R_sqrt.sqrt ((px - qx) * (px - qx) + (py - qy) * (py - qy) + (pz - qz) * (pz - qz))%R.

(** The point of a circle of radius [r] around [center], in the plane
    across [axis], at angle [ang]; the z branch exchanges sine and cosine. *)
Definition ring_point (center : R * R * R) (r : R) (axis : string) (ang : R) : R * R * R :=
  let '(c0, c1, c2) := center in
  if (axis =? "x")%string then (c0, r * cos ang + c1, r * sin ang + c2)%R
  else if (axis =? "y")%string then (r * cos ang + c0, c1, r * sin ang + c2)%R
  else (r * sin ang + c0, r * cos ang + c1, c2)%R.

Definition ellipse_point (a b theta x0 y0 ang : R) : R * R :=
  (a * cos ang * cos theta - b * sin theta * sin ang + x0,
   a * sin theta * cos ang + b * cos theta * sin ang + y0)%R.

Definition valid_axis (axis : string) : bool :=
  ((axis =? "x") || (axis =? "y") || (axis =? "z"))%string.

Section Transform.

Variable num : Type.
Variable sub : num -> num -> num.
Variable transformlist : Type.

(** [ants.apply_transforms_to_points(dim, points, transformlist)], the
    external evaluator. *)
Variable apply_transforms_to_points :
  nat -> DataFrame num -> transformlist -> result (DataFrame num).

(** [s[1:] - s[0]] on a column: the slice is by position, [s[0]] is the
    entry labelled 0, which an empty column does not have. *)
Definition tail_minus_head (s : list num) : result (list num) :=
  match s with
  | [] => Raised (KeyError [Fmt (FNum 0)])
  | s0 :: rest => Returned (map (fun v => sub v s0) rest)
  end.

(** [transform_points(points_df, inv_transformlist)]; a [3 x n] array is
    the triple of its rows. *)
Definition transform_points (points_df : DataFrame num) (inv_transformlist : transformlist)
  : result ((list num * list num * list num) * (list num * list num * list num)) :=
  points_xfm <- apply_transforms_to_points 3%nat points_df inv_transformlist ;;
  x0 <- tail_minus_head (column_x points_df) ;;
  y0 <- tail_minus_head (column_y points_df) ;;
  z0 <- tail_minus_head (column_z points_df) ;;
  x1 <- tail_minus_head (column_x points_xfm) ;;
  y1 <- tail_minus_head (column_y points_xfm) ;;
  z1 <- tail_minus_head (column_z points_xfm) ;;
  Returned ((x0, y0, z0), (x1, y1, z1)).

(** Column [i] of a [3 x n] array. *)
Definition column (p : list num * list num * list num) (i : nat) : option (num * num * num) :=
  match nth_error (fst (fst p)) i, nth_error (snd (fst p)) i, nth_error (snd p) i with
  | Some x, Some y, Some z => Some (x, y, z)
  | _, _, _ => None
  end.

Definition width (p : list num * list num * list num) : nat := length (fst (fst p)).

(** The difference of two points, coordinate by coordinate. *)
Definition displacement (p q : num * num * num) : num * num * num :=
  (sub (fst (fst p)) (fst (fst q)), sub (snd (fst p)) (snd (fst q)), sub (snd p) (snd q)).

End Transform.

(** A sample evaluator, on integer points: every point moves by one unit
    along x. *)
Definition shift_x (_ : nat) (pts : DataFrame Z) (_ : unit) : result (DataFrame Z) :=
  Returned (map (fun p => (fst (fst p) + 1, snd (fst p), snd p)%Z) pts).

End Points.

(** ** [ghost/utils.py]: ellipse parameters *)

Module Conic.

Local Open Scope float_scope.

(** The six coefficients of [A x^2 + B xy + C y^2 + D x + E y + F = 0]. *)
Record conic := mk_conic { cA : float; cB : float; cC : float; cD : float; cE : float; cF : float }.

(** The dictionary [get_ellipse_params] returns. *)
Record ellipse := mk_ellipse {
  ABCDEF : conic; a : float; b : float; x0 : float; y0 : float; theta : float; ecc : float }.

(** [v**2] on a float64: the correctly rounded square. *)
Definition pow2 (v : float) : float := v * v.

(** [B**2 - 4*A*C], the denominator of [a], [b], [x0] and [y0]. *)
Definition denominator (fit : conic) : float :=
  pow2 (cB fit) - 4 * cA fit * cC fit.

(** The argument of the outer square root of [a] ([sign = 1]) and of [b]
    ([sign = -1]): the entries of [np.array([1,-1])]. *)
Definition radicand (fit : conic) (sign : float) : float :=
  let '(mk_conic A B C D E F) := fit in
  2 * (A * pow2 E + C * pow2 D - B * D * E + (pow2 B - 4 * A * C) * F)
    * ((A + C) + sign * PrimFloat.sqrt (pow2 (A - C) + pow2 B)).

(** Two conics that are not ellipses: the parabola [x^2 - y = 0] and the
    hyperbola [x^2 - y^2 - 1 = 0]. *)
Definition parabola : conic := mk_conic 1 0 0 0 (-1) 0.
Definition hyperbola : conic := mk_conic 1 0 (-1) 0 0 (-1).

Section Extraction.

(** [np.arctan2], from the C library. *)
Variable arctan2 : float -> float -> float.

(** The two fitters, [np.linalg.svd] and [np.linalg.eig] behind them. *)
Variable fit_ellipse_svd : list float -> list float -> result conic.
Variable fit_ellipse_eig : list float -> list float -> result conic.

(** The body of [get_ellipse_params] from [A,B,C,D,E,F = fit] on.  No
    statement of it raises: numpy's float64 division by zero and square
    root of a negative number give infinities and NaN. *)
Definition ellipse_of_fit (fit : conic) : ellipse :=
  let '(mk_conic A B C D E F) := fit in
  let a := - PrimFloat.sqrt (radicand fit 1) / (pow2 B - 4 * A * C) in
  let b := - PrimFloat.sqrt (radicand fit (-1)) / (pow2 B - 4 * A * C) in
  let x0 := (2 * C * D - B * E) / (pow2 B - 4 * A * C) in
  let y0 := (2 * A * E - B * D) / (pow2 B - 4 * A * C) in
  let theta := 0.5 * arctan2 (- B) (C - A) in
  let ecc := PrimFloat.sqrt (1 - pow2 b / pow2 a) in
  mk_ellipse fit a b x0 y0 theta ecc.

Definition get_ellipse_params (x y : list float) (method : string) : result ellipse :=
  fit <- (if (method =? "svd")%string then fit_ellipse_svd x y else fit_ellipse_eig x y) ;;
  Returned (ellipse_of_fit fit).

End Extraction.

(** Classes of float64 values. *)
Definition is_nan (v : float) : bool :=
  match Prim2SF v with S754_nan => true | _ => false end.

Definition is_inf (v : float) : bool :=
  match Prim2SF v with S754_infinity _ => true | _ => false end.

Definition is_finite (v : float) : bool := negb (is_nan v || is_inf v).

End Conic.

(** ** [ghost/calib.py] *)

Module Calib.

(** A calibration sheet: its columns, by name, of equal length. *)
Definition sheet := list (string * list Q).

(** [Calibration]: the sheets read from the file, and the fixed table
    from field strength and mimic to the name of a sheet.  Field strengths
    are Python numbers ([3] and [3.0] are the same key), here rationals. *)
Record Calibration := mk_Calibration {
  data : list (string * sheet);
  __sheets : list (Q * list (string * string)) }.

Definition sheets_table : list (Q * list (string * string)) :=
  [ (3%Q, [("T1", "NiCl_3T"); ("T2", "MnCl_3T"); ("ADC", "ADC_3T"); ("CuSO4", "CuSO4_3T")]);
    ((3 # 2)%Q, [("T1", "NiCl_15T"); ("T2", "MnCl_15T"); ("ADC", "ADC_15T")]) ]%string.

(** [Calibration(fname)], given what [read_calibration_sheet(fname)] returned. *)
Definition __init__ (read : list (string * sheet)) : Calibration :=
  mk_Calibration read sheets_table.

(** [d[k]] and [d.get(k)] on dictionaries kept in insertion order. *)
Definition lookup_num (V : Type) (d : list (Q * V)) (k : Q) : option V :=
  option_map snd (find (fun kv => Qeq_bool (fst kv) k) d).

Definition lookup_str (V : Type) (d : list (string * V)) (k : string) : option V :=
  option_map snd (find (fun kv => (fst kv =? k)%string) d).

(** [self.__sheets[B0][mimics]]. *)
Definition sheet_name (self : Calibration) (B0 : Q) (mimics : string) : option string :=
  match lookup_num (__sheets self) B0 with
  | Some by_mimic => lookup_str by_mimic mimics
  | None => None
  end.

(** The text of the [KeyError] of [_get_vals]. *)
Definition cannot_find (self : Calibration) (B0 : Q) (mimics : string) : message :=
  [ Lit "Cannot find sheet for "; Fmt (FStr mimics); Lit " at "; Fmt (FNum B0);
    Lit "T. Available sheets are "; Fmt (FDictKeys (map fst (__sheets self))) ].

Definition missing_column (name : string) : exn := KeyError [Fmt (FStr name)].

(** [Calibration._get_vals(temp, mimics, column, B0=3)].  In the [else]
    branch [df.loc] is read before the subscript is evaluated, so a sheet
    missing from [self.data] ([df] is [None]) fails there; then come the
    two column lookups, whose [KeyError] is not the one handled above. *)
Definition _get_vals (self : Calibration) (temp : Q) (mimics column : string) (B0 : Q)
  : result (list Q) :=
  match sheet_name self B0 mimics with
  | None => Raised (KeyError (cannot_find self B0 mimics))
  | Some name =>
      match lookup_str (data self) name with
      | None => Raised (AttributeError "'NoneType' object has no attribute 'loc'")
      | Some df =>
          match lookup_str df "Temperature (C)" with
          | None => Raised (missing_column "Temperature (C)")
          | Some temps =>
              match lookup_str df (column ++ " (ms)") with
              | None => Raised (missing_column (column ++ " (ms)"))
              | Some vals =>
                  Returned (map snd (filter (fun tv => Qeq_bool (fst tv) temp)
                                            (combine temps vals)))
              end
          end
      end
  end.

Definition get_T1_vals (self : Calibration) (temp : Q) (mimics : string) (B0 : Q) :=
  _get_vals self temp mimics "T1" B0.

Definition get_T2_vals (self : Calibration) (temp : Q) (mimics : string) (B0 : Q) :=
  _get_vals self temp mimics "T2" B0.

(** The values a message formats, and the strings among them. *)
Definition formatted (m : message) : list fvalue :=
  flat_map (fun f => match f with Fmt v => [v] | Lit _ => [] end) m.

Definition names_string (m : message) (s : string) : bool :=
  existsb (fun v => match v with FStr t => (t =? s)%string | _ => false end) (formatted m).

(** The mimics the table knows at a field strength, and at any. *)
Definition mechanisms_at (self : Calibration) (B0 : Q) : list string :=
  match lookup_num (__sheets self) B0 with
  | Some by_mimic => map fst by_mimic
  | None => []
  end.

Definition all_mechanisms (self : Calibration) : list string :=
  flat_map (fun kv => map fst (snd kv)) (__sheets self).

End Calib.

(** ** [ghost/utils.py]: sphere masks *)

Module Sphere.

(** A numpy array of three dimensions: its shape and its planes, rows
    and cells. *)
Record ndarray3 (A : Type) :=
  mk_ndarray3 { shape3 : nat * nat * nat; planes : list (list (list A)) }.

(** [np.meshgrid(xs, ys, zs)], with the default [indexing='xy']: the three
    arrays have shape [(len(ys), len(xs), len(zs))]; the first follows [xs]
    along axis 1, the second [ys] along axis 0, the third [zs] along axis 2. *)
Definition meshgrid3 (A : Type) (xs ys zs : list A) : ndarray3 A * ndarray3 A * ndarray3 A :=
  let sh := (length ys, length xs, length zs) in
  (mk_ndarray3 sh (map (fun _ => map (fun x => map (fun _ => x) zs) xs) ys),
   mk_ndarray3 sh (map (fun y => map (fun _ => map (fun _ => y) zs) xs) ys),
   mk_ndarray3 sh (map (fun _ => map (fun _ => zs) xs) ys)).

(** Element-wise operations on arrays of one shape. *)
Definition map1_3 (A B : Type) (f : A -> B) (a : ndarray3 A) : ndarray3 B :=
  mk_ndarray3 (shape3 a) (map (map (map f)) (planes a)).

Definition map2_3 (A B C : Type) (f : A -> B -> C) (a : ndarray3 A) (b : ndarray3 B)
  : ndarray3 C :=
  mk_ndarray3 (shape3 a)
    (map (fun pp =>
            map (fun rr => map (fun c => f (fst c) (snd c)) (combine (fst rr) (snd rr)))
                (combine (fst pp) (snd pp)))
         (combine (planes a) (planes b))).

(** [np.zeros(shape)]. *)
Definition zeros3 (sh : nat * nat * nat) : ndarray3 float :=
  let '(n0, n1, n2) := sh in
  mk_ndarray3 sh (repeat (repeat (repeat 0%float n2) n1) n0).

(** [arr[mask] = v] for a boolean array [mask] of three dimensions, with
    numpy's comparison of the two shapes as in [setitem_mask]. *)
Definition setitem_mask3 (A : Type) (arr : ndarray3 A) (mask : ndarray3 bool) (v : A)
  : result (ndarray3 A) :=
  let '(n0, n1, n2) := shape3 arr in
  let '(m0, m1, m2) := shape3 mask in
  if negb (axis_matches n0 m0 && axis_matches n1 m1 && axis_matches n2 m2)
  then Raised boolean_index_mismatch
  else if ((n0 =? m0) && (n1 =? m1) && (n2 =? m2))%nat
       then Returned (map2_3 (fun a (m : bool) => if m then v else a) arr mask)
       else Returned arr.

(** [make_sphere(img_shape, radius, center)], with an integral [center].
    The offsets [cx], [cy], [cz] are Python integers; the mesh is built
    from the y axis first, then the x axis, then the z axis, and
    [X**2 + Y**2 + Z**2] is summed from the left in [int64]. *)
Definition make_sphere (img_shape : nat * nat * nat) (radius : float) (center : Z * Z * Z)
  : result (ndarray3 float) :=
  let '(nx, ny, nz) := img_shape in
  let '(c0, c1, c2) := center in
  let cx := (Z.of_nat nx - c0 - Z.of_nat nx / 2)%Z in
  let cy := (Z.of_nat ny - c1 - Z.of_nat ny / 2)%Z in
  let cz := (Z.of_nat nz - c2 - Z.of_nat nz / 2)%Z in
  let '(X, Y, Z) := meshgrid3 (Mask.axis ny cy) (Mask.axis nx cx) (Mask.axis nz cz) in
  let sq := fun v => wrap64 (v * v) in
  let XY := map2_3 (fun x y => wrap64 (sq x + sq y)) X Y in
  let D := map2_3 (fun s z => PrimFloat.sqrt (float_of_int64 (wrap64 (s + sq z)))) XY Z in
  let sphere := zeros3 img_shape in
  setitem_mask3 sphere (map1_3 (fun d => (d <? radius)%float) D) 1%float.

(** The distance computed at a cell whose offsets from the centre are
    [dx], [dy], [dz] along the three axes of the mask. *)
Definition dist3 (dx dy dz : Z) : float :=
  PrimFloat.sqrt
    (float_of_int64 (wrap64 (wrap64 (wrap64 (dy * dy) + wrap64 (dx * dx)) + wrap64 (dz * dz)))).

(** The cell of an array at an index. *)
Definition cell3 (A : Type) (m : ndarray3 A) (i j k : nat) : option A :=
  match nth_error (planes m) i with
  | Some plane => match nth_error plane j with
                  | Some row => nth_error row k
                  | None => None
                  end
  | None => None
  end.

Definition cell (A : Type) (m : ndarray A) (i j : nat) : option A :=
  match nth_error (rows m) i with
  | Some row => nth_error row j
  | None => None
  end.

(** The array whose cell at [(i, j, k)] is [g us[i] vs[j] ws[k]]. *)
Definition tabulate3 (A B C D : Type) (g : A -> B -> C -> D)
    (us : list A) (vs : list B) (ws : list C) : list (list (list D)) :=
  map (fun u => map (fun v => map (fun w => g u v w) ws) vs) us.

(** The values an [int64] holds. *)
Definition fits_int64 (z : Z) : Prop := (- 2 ^ 63 <= z < 2 ^ 63)%Z.

End Sphere.

(** ** [ghost/utils.py]: conic fitting on the real numbers *)

Module Fit.

Local Open Scope R_scope.

Definition matrix := list (list R).

(** The design matrix [np.hstack((x*x, x*y, y*y, x, y, np.ones_like(x)))]
    of the two coordinate columns: one row per point.  Columns of
    different lengths fail, in the products or in [np.hstack], with
    [ValueError]. *)
Definition design_row (p : R * R) : list R :=
  [fst p * fst p; fst p * snd p; snd p * snd p; fst p; snd p; 1].

Definition design_matrix (x y : list R) : result matrix :=
  if (length x =? length y)%nat
  then Returned (map design_row (combine x y))
  else Raised (ValueError "shapes of x and y do not match").

(** The constraint matrix of [fit_ellipse_eig]: [np.zeros([6, 6])] with
    [C[0, 2] = C[2, 0] = 2] and [C[1, 1] = -1]. *)
Definition set_entry (m : matrix) (i j : nat) (v : R) : matrix :=
  map (fun ir => if (fst ir =? i)%nat
                 then map (fun jc => if (fst jc =? j)%nat then v else snd jc)
                          (combine (seq 0 (length (snd ir))) (snd ir))
                 else snd ir)
      (combine (seq 0 (length m)) m).

Definition constraint_matrix : matrix :=
  let C := repeat (repeat 0 6) 6 in
  let C := set_entry C 2 0 2 in
  let C := set_entry C 0 2 2 in
  set_entry C 1 1 (-1).

(** Products of a vector with a vector and of a matrix with a vector. *)
Definition dot_vv (u v : list R) : R :=
  fold_right Rplus 0 (map (fun p => fst p * snd p) (combine u v)).

Definition dot_mv (m : matrix) (v : list R) : list R := map (fun row => dot_vv row v) m.

Section Svd.

(** [np.linalg.svd]: the factors [U], [S] and [Vt]. *)
Variable linalg_svd : matrix -> result (matrix * list R * matrix).

(** [fit_ellipse_svd(x, y)]: the last row of [Vt]. *)
Definition fit_ellipse_svd (x y : list R) : result (list R) :=
  D <- design_matrix x y ;;
  usv <- linalg_svd D ;;
  match rev (snd usv) with
  | last_row :: _ => Returned last_row
  | [] => Raised (IndexError "index -1 is out of bounds for axis 0 with size 0")
  end.

End Svd.

(** The six coefficients of a conic, as real numbers. *)
Record conic := mk_conic { qA : R; qB : R; qC : R; qD : R; qE : R; qF : R }.

Definition coefficients (q : conic) : list R := [qA q; qB q; qC q; qD q; qE q; qF q].

Definition scale (k : R) (q : conic) : conic :=
  mk_conic (k * qA q) (k * qB q) (k * qC q) (k * qD q) (k * qE q) (k * qF q).

(** The closed form of [get_ellipse_params] on the real numbers.  It
    stands for the float64 code where that code divides by a non-zero
    number and takes square roots of non-negative numbers. *)
Definition denominator (q : conic) : R := qB q * qB q - 4 * qA q * qC q.

Definition radicand (q : conic) (sign : R) : R :=
  let '(mk_conic A B C D E F) := q in
  2 * (A * (E * E) + C * (D * D) - B * D * E + (B * B - 4 * A * C) * F)
    * ((A + C) + sign * R_sqrt.sqrt ((A - C) * (A - C) + B * B)).

Record ellipse := mk_ellipse {
  ABCDEF : conic; a : R; b : R; x0 : R; y0 : R; theta : R; ecc : R }.

Section Extraction.

Variable arctan2 : R -> R -> R.

Definition ellipse_of_fit (fit : conic) : ellipse :=
  let '(mk_conic A B C D E F) := fit in
  let a := - R_sqrt.sqrt (radicand fit 1) / (B * B - 4 * A * C) in
  let b := - R_sqrt.sqrt (radicand fit (-1)) / (B * B - 4 * A * C) in
  let x0 := (2 * C * D - B * E) / (B * B - 4 * A * C) in
  let y0 := (2 * A * E - B * D) / (B * B - 4 * A * C) in
  let theta := 0.5 * arctan2 (- B) (C - A) in
  let ecc := R_sqrt.sqrt (1 - (b * b) / (a * a)) in
  mk_ellipse fit a b x0 y0 theta ecc.

End Extraction.

(** The conic of the ellipse with semi-axes [a] and [b], turned by
    [theta] around its centre [(x0, y0)]: the set of the points
    [get_ellipse] samples. *)
Definition conic_of_ellipse (a b theta x0 y0 : R) : conic :=
  let A := a * a * (sin theta * sin theta) + b * b * (cos theta * cos theta) in
  let B := 2 * (b * b - a * a) * sin theta * cos theta in
  let C := a * a * (cos theta * cos theta) + b * b * (sin theta * sin theta) in
  mk_conic A B C
    (- 2 * A * x0 - B * y0)
    (- B * x0 - 2 * C * y0)
    (A * x0 * x0 + B * x0 * y0 + C * y0 * y0 - a * a * b * b).

(** The Euclidean norm of a vector of three coordinates. *)
Definition norm3 (d : R * R * R) : R :=
  R_sqrt.sqrt (fst (fst d) * fst (fst d) + snd (fst d) * snd (fst d) + snd d * snd d).

(** The coordinate of a point along an axis. *)
Definition along (axis : string) (p : R * R * R) : R :=
  if (axis =? "x")%string then fst (fst p)
  else if (axis =? "y")%string then snd (fst p)
  else snd p.

Definition translate (d p : R * R * R) : R * R * R :=
  (fst (fst p) + fst (fst d), snd (fst p) + snd (fst d), snd p + snd d).

End Fit.

(** ** [ghost/utils.py]: the eigenvector fit, and the two fits compared *)

Module FitEig.
Import Fit.

Local Open Scope R_scope.

(** [m.T], for an array [m] with [ncols] columns. *)
Definition transpose (ncols : nat) (m : matrix) : matrix :=
  map (fun j => map (fun row => nth j row 0) m) (seq 0 ncols).

(** [np.dot(a, b)] for two arrays of two dimensions whose shapes agree,
    [b] with [ncols] columns. *)
Definition np_dot (a b : matrix) (ncols : nat) : matrix :=
  map (fun row => map (fun col => dot_vv row col) (transpose ncols b)) a.

(** The scatter matrix [S = np.dot(D.T, D)] of a design matrix, of shape
    [(6, 6)]. *)
Definition scatter (D : matrix) : matrix := np_dot (transpose 6 D) D 6.

(** [np.argmax(v)]: the first index that holds the largest entry. *)
Fixpoint argmax_from (best : R) (best_index next : nat) (v : list R) : nat :=
  match v with
  | [] => best_index
  | e :: v' => if Rlt_dec best e then argmax_from e next (S next) v'
               else argmax_from best best_index (S next) v'
  end.

Definition argmax (v : list R) : result nat :=
  match v with
  | [] => Raised (ValueError "attempt to get argmax of an empty sequence")
  | e :: v' => Returned (argmax_from e 0 1 v')
  end.

(** [V[:, n]], for [n] below the number of columns of [V]. *)
Definition column (n : nat) (V : matrix) : list R := map (fun row => nth n row 0) V.

Section Eig.

(** [np.linalg.inv], and [np.linalg.eig] where the eigenvalues are real:
    the eigenvalues [E], and the array [V] whose columns are the
    eigenvectors. *)
Variable linalg_inv : matrix -> result matrix.
Variable linalg_eig : matrix -> result (list R * matrix).

(** [fit_ellipse_eig(x, y)]: the column of [V] at the eigenvalue of the
    largest modulus. *)
Definition fit_ellipse_eig (x y : list R) : result (list R) :=
  D <- design_matrix x y ;;
  let S := scatter D in
  let C := constraint_matrix in
  Sinv <- linalg_inv S ;;
  EV <- linalg_eig (np_dot Sinv C 6) ;;
  n <- argmax (map Rabs (fst EV)) ;;
  Returned (column n (snd EV)).

End Eig.










End FitEig.

(** ** [ghost/calib.py]: reading the sheets, and the other accessors *)

Module CalibRead.
Import Calib.

(** The description of one sheet of the workbook: the logical name of
    its table, the header row, and the number of trailing rows. *)
Record description := mk_description { name : string; head : Z; tail : Z }.

(** The default [sheets] of [read_calibration_sheet], in the order of the
    dictionary display. *)
Definition default_sheets : list (string * description) :=
  [ ("ADC Solutions @ 1.5T", mk_description "ADC_15T" 3 2);
    ("ADC Solutions @ 3.0T", mk_description "ADC_3T" 3 2);
    ("NiCl Solutions @ 1.5T", mk_description "NiCl_15T" 3 2);
    ("NiCl Solutions @ 3.0T", mk_description "NiCl_3T" 3 2);
    ("MnCl Solutions @ 1.5T", mk_description "MnCl_15T" 3 2);
    ("MnCl Solutions @ 3.0T", mk_description "MnCl_3T" 3 2);
    ("CuSO4 Solutions @ 3.0T", mk_description "CuSO4_3T" 3 3);
    ("CMRI LC Values", mk_description "CMRI_LC" 3 0) ]%string.

(** Python's [l[:stop]]: a negative [stop] counts from the end, and a
    [stop] of 0 leaves nothing. *)
Definition slice_until (A : Type) (l : list A) (stop : Z) : list A :=
  if (stop <? 0)%Z then firstn (Z.to_nat (Z.of_nat (length l) + stop)) l
  else firstn (Z.to_nat stop) l.

(** [df[:stop]] on a table: the same rows of every column. *)
Definition rows_until (df : sheet) (stop : Z) : sheet :=
  map (fun c => (fst c, slice_until (snd c) stop)) df.

(** [d[k] = v] on a dictionary kept in insertion order. *)
Fixpoint dict_set (V : Type) (d : list (string * V)) (k : string) (v : V)
  : list (string * V) :=
  match d with
  | [] => [(k, v)]
  | (k', v') :: rest => if (k' =? k)%string then (k, v) :: rest
                        else (k', v') :: dict_set rest k v
  end.

Section Reading.

(** [pd.read_excel(fname, sheet_name=..., header=...)]. *)
Variable read_excel : string -> string -> Z -> result sheet.

(** [read_calibration_sheet(fname, sheets=None)]: an absent or empty
    [sheets] stands for the default one. *)
Definition read_calibration_sheet (fname : string)
    (sheets : option (list (string * description))) : result (list (string * sheet)) :=
  let sheets := match sheets with
                | None | Some [] => default_sheets
                | Some s => s
                end in
  fold_left
    (fun acc entry =>
       data <- acc ;;
       df <- read_excel fname (fst entry) (head (snd entry)) ;;
       Returned (dict_set data (name (snd entry)) (rows_until df (-1 * tail (snd entry)))))
    sheets (Returned []).

(** What one entry of [sheets] becomes in the result: the table read for
    it, cut at [-1 * tail], under its logical name. *)
Definition entry_read (fname : string) (entry : string * description)
    (out : string * sheet) : Prop :=
  exists df, read_excel fname (fst entry) (head (snd entry)) = Returned df
             /\ out = (name (snd entry), rows_until df (-1 * tail (snd entry))).

(** [Calibration(fname)]. *)
Definition Calibration_new (fname : string) : result Calibration :=
  read <- read_calibration_sheet fname None ;;
  Returned (__init__ read).

End Reading.

(** [self.data.get(sheet).get(column)]: [None] for a missing column, and
    [AttributeError] when the sheet itself is missing. *)
Definition get_column (self : Calibration) (sheet_key column : string)
  : result (option (list Q)) :=
  match lookup_str (data self) sheet_key with
  | None => Raised (AttributeError "'NoneType' object has no attribute 'get'")
  | Some df => Returned (lookup_str df column)
  end.

(** [....values] on what [get_column] found. *)
Definition values (c : option (list Q)) : result (list Q) :=
  match c with
  | None => Raised (AttributeError "'NoneType' object has no attribute 'values'")
  | Some vs => Returned vs
  end.

Definition get_T1_conc (self : Calibration) : result (list Q) :=
  c <- get_column self "NiCl_15T" "Concentration (mM)" ;; values c.

Definition get_T2_conc (self : Calibration) : result (list Q) :=
  c <- get_column self "MnCl_15T" "Concentration (mM)" ;; values c.

Definition get_thermometer_vals (self : Calibration) : result (option (list Q)) :=
  get_column self "CMRI_LC" "Measured Transition Temperature (C)".

(** A sample workbook: every sheet holds the same four rows. *)
Definition sample_sheet : sheet :=
  [ ("Temperature (C)", [20; 20; 22; 22]%Q);
    ("Concentration (mM)", [1; 2; 1; 2]%Q);
    ("T1 (ms)", [100; 200; 110; 210]%Q);
    ("Measured Transition Temperature (C)", [17; 18; 19; 20]%Q) ]%string.

Definition sample_read_excel (_ _ : string) (_ : Z) : result sheet := Returned sample_sheet.

(** The logical names of a description of sheets. *)
Definition names (sheets : list (string * description)) : list string :=
  map (fun entry => name (snd entry)) sheets.

End CalibRead.

(** * Properties *)

Unset Implicit Arguments.

(** ** Lists *)

Lemma combine_map_same (A B C : Type) (f : A -> B) (g : A -> C) (l : list A) :
  combine (map f l) (map g l) = map (fun v => (f v, g v)) l.
Proof. induction l as [|v l IH]; simpl; [reflexivity | now rewrite IH]. Qed.

Lemma combine_repeat_l (A B : Type) (v : A) (n : nat) (l : list B) :
  length l = n -> combine (repeat v n) l = map (pair v) l.
Proof.
  intros <-. induction l as [|w l IH]; simpl; [reflexivity | now rewrite IH].
Qed.

Lemma combine_map_r (A B C : Type) (g : B -> C) (l : list A) (k : list B) :
  combine l (map g k) = map (fun p => (fst p, g (snd p))) (combine l k).
Proof.
  revert k; induction l as [|v l IH]; intros [|w k]; simpl; try reflexivity.
  now rewrite IH.
Qed.

(** ** Masks *)

Module MaskFacts.
Import Mask.

Lemma arange_length (start stop : Z) : length (arange start stop) = Z.to_nat (stop - start).
Proof. unfold arange. now rewrite length_map, length_seq. Qed.

(** [np.arange(-n//2, n//2)] has [n] entries, for odd [n] as well. *)
Lemma axis_length (n : nat) (c : Z) : length (axis n c) = n.
Proof.
  unfold axis. rewrite length_map, arange_length.
  assert (H : (Z.of_nat n / 2 - (- Z.of_nat n) / 2 = Z.of_nat n)%Z).
  { Z.div_mod_to_equations. lia. }
  rewrite H. apply Nat2Z.id.
Qed.

(** The distance array is transposed: [ny] rows of [nx] entries. *)
Lemma distances_shape (nx ny : nat) (center : Z * Z) :
  shape (distances (nx, ny) center) = (ny, nx).
Proof. unfold distances, meshgrid, map2. simpl. now rewrite !axis_length. Qed.

Lemma distances_rows (nx ny : nat) (center : Z * Z) :
  rows (distances (nx, ny) center)
  = map (fun y => map (fun x => dist x y) (axis nx (fst center))) (axis ny (snd center)).
Proof.
  unfold distances, meshgrid, map2. simpl.
  rewrite combine_map_same, map_map. apply map_ext. intros y. simpl.
  rewrite <- (map_id (axis nx (fst center))) at 1.
  rewrite combine_map_same, map_map. reflexivity.
Qed.

(** On a square shape the call returns, and every cell holds 1 exactly
    when its distance is strictly below the radius. *)
Lemma make_circle_square (n : nat) (radius : float) (center : Z * Z) :
  make_circle (n, n) radius center
  = Returned (mk_ndarray (n, n)
      (map (fun y => map (fun x => if (dist x y <? radius)%float then 1%float else 0%float)
                         (axis n (fst center)))
           (axis n (snd center)))).
Proof.
  unfold make_circle, setitem_mask, axis_matches.
  cbn [map1 zeros shape fst snd].
  rewrite distances_shape, Nat.eqb_refl, !orb_true_r. cbn [negb andb].
  f_equal. unfold map2. cbn [shape]. f_equal.
  unfold map1, zeros. cbn [rows fst snd].
  rewrite distances_rows, map_map.
  rewrite combine_map_r, combine_repeat_l by apply axis_length.
  rewrite !map_map.
  apply map_ext. intros y. cbn [fst snd].
  rewrite combine_map_r.
  rewrite combine_repeat_l by (rewrite length_map; apply axis_length).
  rewrite !map_map.
  apply map_ext. intros x. reflexivity.
Qed.

(** On a shape that is not square the boolean assignment fails: one
    of the two axes is not empty, and the lengths differ along it. *)
Lemma axis_matches_transposed (nx ny : nat) :
  nx <> ny -> axis_matches nx ny && axis_matches ny nx = false.
Proof.
  intros Hne. unfold axis_matches.
  destruct (Nat.eqb_spec ny 0), (Nat.eqb_spec nx 0),
           (Nat.eqb_spec nx ny), (Nat.eqb_spec ny nx); cbn; try reflexivity; lia.
Qed.

Lemma make_circle_non_square (nx ny : nat) (radius : float) (center : Z * Z) :
  nx <> ny -> make_circle (nx, ny) radius center = Raised boolean_index_mismatch.
Proof.
  intros Hne. unfold make_circle, setitem_mask.
  cbn [map1 zeros shape].
  rewrite distances_shape.
  now rewrite (axis_matches_transposed nx ny Hne).
Qed.

(** A mask comes back exactly for the square shapes. *)
Lemma make_circle_returns_iff_square (nx ny : nat) (radius : float) (center : Z * Z) :
  returns (make_circle (nx, ny) radius center) = (nx =? ny)%nat.
Proof.
  destruct (Nat.eq_dec nx ny) as [->|Hne].
  - now rewrite make_circle_square, Nat.eqb_refl.
  - rewrite (make_circle_non_square nx ny radius center Hne).
    symmetry. now apply Nat.eqb_neq.
Qed.

(** C10.  For every shape [(nx, ny)] with [nx <> ny], and every centre
    whose two coordinates fit [int64], [make_circle] fails with numpy's
    [IndexError] on the boolean assignment and returns no mask: the
    distance array built from the mesh has shape [(ny, nx)], the
    transpose of the [(nx, ny)] output array, so the two shapes differ.
    A mask is returned only for a square shape. *)
Theorem make_circle_shape_mismatch (nx ny : nat) (radius : float) (center : Z * Z) :
  nx <> ny ->
  Sphere.fits_int64 (fst center) -> Sphere.fits_int64 (snd center) ->
  shape (distances (nx, ny) center) = (ny, nx)
  /\ shape (zeros (nx, ny)) = (nx, ny)
  /\ make_circle (nx, ny) radius center = Raised boolean_index_mismatch
  /\ isinstance boolean_index_mismatch cIndexError = true
  /\ (forall mx my r c m,
        Sphere.fits_int64 (fst c) -> Sphere.fits_int64 (snd c) ->
        make_circle (mx, my) r c = Returned m -> mx = my).
Proof.
  intros Hne _ _.
  split; [apply distances_shape |].
  split; [reflexivity |].
  split; [now apply make_circle_non_square |].
  split; [reflexivity |].
  intros mx my r c m _ _ Hm.
  apply Nat.eqb_eq. rewrite <- (make_circle_returns_iff_square mx my r c).
  now rewrite Hm.
Qed.

Lemma make_circle_shape_mismatch_witness :
  2%nat <> 3%nat
  /\ Sphere.fits_int64 0 /\ Sphere.fits_int64 0
  /\ make_circle (2, 3)%nat 10%float (0, 0)%Z = Raised boolean_index_mismatch.
Proof.
  split; [discriminate |].
  split; [unfold Sphere.fits_int64; lia |].
  split; [unfold Sphere.fits_int64; lia |].
  apply (make_circle_shape_mismatch 2%nat 3%nat 10%float (0, 0)%Z).
  - discriminate.
  - unfold Sphere.fits_int64; cbn [fst]; lia.
  - unfold Sphere.fits_int64; cbn [snd]; lia.
Defined.

(** C5.  [make_circle((64,64), 10, (0,0))] returns a 64 by 64 mask whose
    cells are 1 exactly at the grid points with [x^2 + y^2 < 10^2], so the
    number of 1-valued cells is the analytic count of the grid points
    strictly closer than 10 to the centre (305 of them); the 12 grid
    points at distance exactly 10 hold 0. *)
Theorem make_circle_64_count :
  exists m,
    make_circle (64, 64)%nat 10%float (0, 0)%Z = Returned m
    /\ shape m = (64, 64)%nat
    /\ concat (rows m)
       = map (fun p => if strictly_inside 10%Z p then 1%float else 0%float)
             (grid_points (64, 64)%nat (0, 0)%Z)
    /\ count_ones m = analytic_count (64, 64)%nat (0, 0)%Z 10%Z
    /\ count_ones m = 305%nat
    /\ length (filter (on_boundary 10%Z) (grid_points (64, 64)%nat (0, 0)%Z)) = 12%nat
    /\ forallb (fun pv => implb (on_boundary 10%Z (fst pv)) (snd pv =? 0)%float)
               (combine (grid_points (64, 64)%nat (0, 0)%Z) (concat (rows m))) = true.
Proof.
  eexists. split; [apply make_circle_square |].
  cbn [shape rows].
  split; [reflexivity |].
  split; [vm_compute; reflexivity |].
  split; [vm_compute; reflexivity |].
  split; [vm_compute; reflexivity |].
  split; vm_compute; reflexivity.
Qed.

End MaskFacts.

(** ** Point sets *)

Module PointsFacts.
Import Points.
Local Open Scope R_scope.

Lemma set_last_snoc (A : Type) (l : list A) (v w : A) : set_last (l ++ [v]) w = l ++ [w].
Proof.
  unfold set_last. destruct (l ++ [v]) eqn:E.
  - now destruct l.
  - rewrite <- E. now rewrite removelast_last.
Qed.

Lemma linspace_samples_length (start stop : R) (n : nat) :
  length (linspace_samples start stop n) = n.
Proof.
  unfold linspace_samples.
  assert (L : forall f : R -> R, length (map f (map INR (seq 0 n))) = n).
  { intros f. now rewrite !length_map, length_seq. }
  destruct (0 <? n - 1)%nat; destruct (1 <? n)%nat eqn:E1; rewrite ?L; try reflexivity.
  all: apply Nat.ltb_lt in E1; destruct n as [|m]; [lia |].
  all: rewrite seq_S, !map_app; cbn [map]; rewrite set_last_snoc.
  all: rewrite length_app, !length_map, length_seq; simpl; lia.
Qed.

(** The samples of [np.linspace(0, 1, n)] are [k / (n - 1)], the end 1
    included. *)
Lemma linspace_unit (n : nat) :
  (2 <= n)%nat ->
  linspace_samples 0 1 n = map (fun k => INR k / INR (n - 1)) (seq 0 n).
Proof.
  intros Hn. unfold linspace_samples.
  assert (Hd : INR (n - 1) <> 0) by (apply not_0_INR; lia).
  replace (0 <? n - 1)%nat with true by (symmetry; apply Nat.ltb_lt; lia).
  replace (1 <? n)%nat with true by (symmetry; apply Nat.ltb_lt; lia).
  rewrite map_map.
  destruct n as [|m]; [lia |].
  rewrite seq_S, !map_app. cbn [map]. rewrite set_last_snoc.
  f_equal.
  - apply map_ext. intros k. field. exact Hd.
  - cbn [Nat.add]. replace (S m - 1)%nat with m in * by lia.
    f_equal. field. exact Hd.
Qed.

Lemma linspace_of_nat (start stop : R) (n : nat) :
  linspace start stop (Z.of_nat n) = Returned (linspace_samples start stop n).
Proof.
  unfold linspace.
  replace (Z.of_nat n <? 0)%Z with false by (symmetry; apply Z.ltb_ge; lia).
  now rewrite Nat2Z.id.
Qed.

Lemma from_dict_maps (A B : Type) (f g h : A -> B) (a b c : B) (t : list A) :
  from_dict (a :: map f t) (b :: map g t) (c :: map h t)
  = Returned ((a, b, c) :: map (fun v => (f v, g v, h v)) t).
Proof.
  unfold from_dict. cbn [length]. rewrite !length_map, !Nat.eqb_refl. cbn [andb].
  f_equal. cbn [combine map fst snd]. f_equal.
  rewrite (combine_map_same _ _ _ g h t).
  rewrite (combine_map_r _ _ _ (fun v => (g v, h v)) (map f t) t).
  rewrite <- (map_id t) at 2.
  rewrite (combine_map_same _ _ _ f (fun v => v) t), !map_map. reflexivity.
Qed.

Lemma valid_axis_cases (axis : string) :
  valid_axis axis = true -> axis = "x"%string \/ axis = "y"%string \/ axis = "z"%string.
Proof.
  unfold valid_axis. intros H.
  apply orb_true_iff in H as [H|H]; [apply orb_true_iff in H as [H|H] |];
    apply String.eqb_eq in H; auto.
Qed.

(** With a valid axis, the point set is the centre followed by the ring
    points at the angles [t * 2 * pi], [t] running over [np.linspace(0, 1, N)]. *)
Lemma gen_circle_valid (center : R * R * R) (r : R) (axis : string) (N : nat) :
  valid_axis axis = true ->
  gen_circle center r axis (Z.of_nat N)
  = Returned (center :: map (fun t => ring_point center r axis (t * 2 * PI))
                            (linspace_samples 0 1 N)).
Proof.
  intros Hax. unfold gen_circle. rewrite linspace_of_nat. cbn [bind].
  destruct center as [[c0 c1] c2].
  destruct (valid_axis_cases _ Hax) as [-> | [-> | ->]]; cbn -[linspace_samples PI cos sin];
    rewrite from_dict_maps; do 2 f_equal; apply map_ext; intros t;
    unfold ring_point; cbn -[PI cos sin]; now rewrite Rmult_1_l.
Qed.

Lemma ring_point_distance (center : R * R * R) (r : R) (axis : string) (ang : R) :
  distance (ring_point center r axis ang) center = Rabs r.
Proof.
  destruct center as [[c0 c1] c2]. unfold ring_point.
  pose proof (sin2_cos2 ang) as Hsc. unfold Rsqr in Hsc.
  rewrite <- sqrt_Rsqr_abs. unfold Rsqr.
  destruct (axis =? "x")%string; [| destruct (axis =? "y")%string];
    unfold distance; f_equal; nra.
Qed.


Lemma ring_point_2PI (center : R * R * R) (r : R) (axis : string) :
  ring_point center r axis (2 * PI) = ring_point center r axis 0.
Proof.
  unfold ring_point. destruct center as [[c0 c1] c2].
  now rewrite cos_2PI, sin_2PI, cos_0, sin_0.
Qed.

Lemma ellipse_point_2PI (a b theta x0 y0 : R) :
  ellipse_point a b theta x0 y0 (2 * PI) = ellipse_point a b theta x0 y0 0.
Proof. unfold ellipse_point. now rewrite cos_2PI, sin_2PI, cos_0, sin_0. Qed.

Lemma nth_error_unit_samples (n k : nat) :
  (2 <= n)%nat -> (k < n)%nat ->
  nth_error (linspace_samples 0 1 n) k = Some (INR k / INR (n - 1)).
Proof.
  intros Hn Hk. rewrite linspace_unit by exact Hn.
  rewrite nth_error_map, nth_error_seq.
  apply Nat.ltb_lt in Hk. now rewrite Hk.
Qed.

(** C4.  For every axis among x, y, z, every centre, every radius
    [r >= 0] and every [npoints = N], [gen_circle] returns [N + 1] points,
    the point at index 0 is the centre, and every point at an index from
    1 to [N] lies at Euclidean distance [r] from the centre (exactly so on
    the real numbers). *)
Theorem gen_circle_ring_invariant (center : R * R * R) (r : R) (axis : string) (N : nat) :
  valid_axis axis = true ->
  0 <= r ->
  exists pts,
    gen_circle center r axis (Z.of_nat N) = Returned pts
    /\ length pts = S N
    /\ nth_error pts 0 = Some center
    /\ forall i, (1 <= i <= N)%nat ->
         exists p, nth_error pts i = Some p /\ distance p center = r.
Proof.
  intros Hax Hr. rewrite (gen_circle_valid center r axis N Hax).
  eexists. split; [reflexivity |].
  split; [cbn [length]; now rewrite length_map, linspace_samples_length |].
  split; [reflexivity |].
  intros [|k] [H1 HN]; [lia |].
  cbn [nth_error]. rewrite nth_error_map.
  destruct (nth_error (linspace_samples 0 1 N) k) as [t|] eqn:Et.
  - eexists. split; [reflexivity |].
    rewrite ring_point_distance. now apply Rabs_pos_eq.
  - exfalso. apply (proj2 (nth_error_Some (linspace_samples 0 1 N) k)); [| exact Et].
    rewrite linspace_samples_length. lia.
Qed.

Lemma gen_circle_ring_invariant_witness :
  valid_axis "x" = true /\ 0 <= 2 /\
  exists pts,
    gen_circle (0, 0, 0) 2 "x" 3 = Returned pts
    /\ length pts = 4%nat
    /\ nth_error pts 0 = Some (0, 0, 0)
    /\ forall i, (1 <= i <= 3)%nat ->
         exists p, nth_error pts i = Some p /\ distance p (0, 0, 0) = 2.
Proof.
  split; [reflexivity |]. split; [lra |].
  apply (gen_circle_ring_invariant (0, 0, 0) 2 "x" 3%nat); [reflexivity | lra].
Defined.

(** C6, as the code has it.  For every sample count [n >= 2], both
    [gen_circle] (at the indices 1 to [n]) and [get_ellipse] place sample
    [k] at the angle [2 pi k / (n - 1)]: the parameter runs over the closed
    interval [0, 1], both ends included.  The last sample stands at the
    angle [2 pi] and repeats the first one, at angle 0. *)
Theorem boundary_samples_closed_interval
    (center : R * R * R) (r : R) (axis : string) (a b theta x0 y0 : R) (n : nat) :
  valid_axis axis = true ->
  (2 <= n)%nat ->
  exists pts x_el y_el,
    gen_circle center r axis (Z.of_nat n) = Returned pts
    /\ get_ellipse a b theta x0 y0 (Z.of_nat n) = Returned (x_el, y_el)
    /\ (forall k, (k < n)%nat ->
          let ang := 2 * PI * INR k / INR (n - 1) in
          nth_error pts (S k) = Some (ring_point center r axis ang)
          /\ nth_error x_el k = Some (fst (ellipse_point a b theta x0 y0 ang))
          /\ nth_error y_el k = Some (snd (ellipse_point a b theta x0 y0 ang)))
    /\ nth_error pts n = Some (ring_point center r axis (2 * PI))
    /\ nth_error pts n = nth_error pts 1
    /\ nth_error x_el (n - 1) = nth_error x_el 0
    /\ nth_error y_el (n - 1) = nth_error y_el 0.
Proof.
  intros Hax Hn.
  assert (Hd : INR (n - 1) <> 0) by (apply not_0_INR; lia).
  assert (Hlast : INR (n - 1) / INR (n - 1) = 1) by (now field).
  assert (Hfirst : INR 0 / INR (n - 1) = 0) by (cbn [INR]; now field).
  rewrite (gen_circle_valid center r axis n Hax).
  unfold get_ellipse. rewrite linspace_of_nat. cbn [bind].
  do 3 eexists. split; [reflexivity |]. split; [reflexivity |].
  split; [| split; [| split; [| split]]].
  - intros k Hk. set (ang := 2 * PI * INR k / INR (n - 1)). cbn [nth_error].
    rewrite !nth_error_map, nth_error_unit_samples by assumption.
    cbn [option_map ellipse_point fst snd].
    replace (INR k / INR (n - 1) * 2 * PI) with ang by (unfold ang; now field).
    replace (INR k / INR (n - 1) * PI * 2) with ang by (unfold ang; now field).
    repeat split.
  - destruct n as [|m]; [lia |]. cbn [nth_error].
    rewrite nth_error_map, nth_error_unit_samples by lia.
    replace (S m - 1)%nat with m in * by lia.
    cbn [option_map]. rewrite Hlast. do 2 f_equal. ring.
  - destruct n as [|m]; [lia |]. rewrite !nth_error_cons_succ.
    rewrite !nth_error_map, !nth_error_unit_samples by lia.
    replace (S m - 1)%nat with m in * by lia.
    cbn [option_map]. rewrite Hlast, Hfirst. f_equal.
    replace (1 * 2 * PI) with (2 * PI) by ring.
    replace (0 * 2 * PI) with 0 by ring.
    apply ring_point_2PI.
  - rewrite !nth_error_map, !nth_error_unit_samples by lia.
    cbn [option_map]. rewrite Hlast, Hfirst. f_equal.
    replace (1 * PI * 2) with (2 * PI) by ring.
    replace (0 * PI * 2) with 0 by ring.
    now rewrite cos_2PI, sin_2PI, cos_0, sin_0.
  - rewrite !nth_error_map, !nth_error_unit_samples by lia.
    cbn [option_map]. rewrite Hlast, Hfirst. f_equal.
    replace (1 * PI * 2) with (2 * PI) by ring.
    replace (0 * PI * 2) with 0 by ring.
    now rewrite cos_2PI, sin_2PI, cos_0, sin_0.
Qed.


Lemma boundary_samples_closed_interval_witness :
  valid_axis "z" = true /\ (2 <= 5)%nat /\
  exists pts x_el y_el,
    gen_circle (1, 2, 3) 4 "z" 5 = Returned pts
    /\ get_ellipse 5 3 (3 / 10) 1 (- 2) 5 = Returned (x_el, y_el)
    /\ (forall k, (k < 5)%nat ->
          let ang := 2 * PI * INR k / INR (5 - 1) in
          nth_error pts (S k) = Some (ring_point (1, 2, 3) 4 "z" ang)
          /\ nth_error x_el k = Some (fst (ellipse_point 5 3 (3 / 10) 1 (- 2) ang))
          /\ nth_error y_el k = Some (snd (ellipse_point 5 3 (3 / 10) 1 (- 2) ang)))
    /\ nth_error pts 5 = Some (ring_point (1, 2, 3) 4 "z" (2 * PI))
    /\ nth_error pts 5 = nth_error pts 1
    /\ nth_error x_el (5 - 1) = nth_error x_el 0
    /\ nth_error y_el (5 - 1) = nth_error y_el 0.
Proof.
  split; [reflexivity |]. split; [lia |].
  apply (boundary_samples_closed_interval (1, 2, 3) 4 "z" 5 3 (3 / 10) 1 (- 2) 5%nat);
    [reflexivity | lia].
Defined.

(** C6 as stated fails.  With two samples the claim puts sample 1 at
    the angle [2 pi * 1 / 2 = pi], the point [(0, -1, 0)] of the unit
    circle across x; [gen_circle] returns [(0, 1, 0)] there, the point of
    the angle [2 pi], a repetition of sample 0.  [get_ellipse] likewise
    returns the point [(1, 0)] of the unit circle twice. *)
Lemma boundary_samples_half_open_counterexample :
  gen_circle (0, 0, 0) 1 "x" 2 = Returned [(0, 0, 0); (0, 1, 0); (0, 1, 0)]
  /\ get_ellipse 1 1 0 0 0 2 = Returned ([1; 1], [0; 0])
  /\ ~ (exists pts,
          gen_circle (0, 0, 0) 1 "x" 2 = Returned pts
          /\ forall k, (k < 2)%nat ->
               nth_error pts (S k)
               = Some (ring_point (0, 0, 0) 1 "x" (2 * PI * INR k / INR 2))).
Proof.
  assert (H0 : INR 0 * ((1 - 0) / INR 1) + 0 = 0) by (cbn [INR]; field).
  assert (G : gen_circle (0, 0, 0) 1 "x" 2 = Returned [(0, 0, 0); (0, 1, 0); (0, 1, 0)]).
  { change 2%Z with (Z.of_nat 2).
    rewrite (gen_circle_valid (0, 0, 0) 1 "x" 2 eq_refl).
    unfold linspace_samples, set_last, ring_point.
    cbn [Nat.sub Nat.ltb Nat.leb seq map removelast app String.eqb Ascii.eqb Bool.eqb].
    rewrite H0.
    replace (0 * 2 * PI) with 0 by ring.
    replace (1 * 2 * PI) with (2 * PI) by ring.
    rewrite cos_0, sin_0, cos_2PI, sin_2PI.
    repeat f_equal; ring. }
  split; [exact G |]. split.
  - change 2%Z with (Z.of_nat 2). unfold get_ellipse.
    rewrite linspace_of_nat. cbn [bind].
    unfold linspace_samples, set_last.
    cbn [Nat.sub Nat.ltb Nat.leb seq map removelast app].
    rewrite H0.
    replace (0 * PI * 2) with 0 by ring.
    replace (1 * PI * 2) with (2 * PI) by ring.
    rewrite cos_0, sin_0, cos_2PI, sin_2PI.
    repeat f_equal; ring.
  - intros (pts & Hpts & Hk).
    rewrite G in Hpts. injection Hpts as <-.
    specialize (Hk 1%nat ltac:(lia)).
    cbn [nth_error ring_point String.eqb Ascii.eqb Bool.eqb INR] in Hk.
    replace (2 * PI * 1 / (1 + 1)) with PI in Hk by field.
    rewrite cos_PI in Hk. injection Hk as Hk. lra.
Qed.

(** C7, as the code has it.  For every axis argument that is none of
    ['x'], ['y'], ['z'], [gen_circle] returns no point set: with a
    negative [npoints] [np.linspace] raises [ValueError], otherwise the
    coordinates were never assigned and reading [x] raises
    [UnboundLocalError], a [NameError], which is not an error of the
    invalid-argument kind. *)
Theorem gen_circle_invalid_axis (center : R * R * R) (r : R) (axis : string) (npoints : Z) :
  valid_axis axis = false ->
  gen_circle center r axis npoints
  = Raised (if (npoints <? 0)%Z
            then ValueError "Number of samples must be non-negative"
            else UnboundLocalError "x")
  /\ returns (gen_circle center r axis npoints) = false
  /\ isinstance (UnboundLocalError "x") cNameError = true
  /\ kind_of (UnboundLocalError "x") = None.
Proof.
  intros Hax.
  assert (G : gen_circle center r axis npoints
              = Raised (if (npoints <? 0)%Z
                        then ValueError "Number of samples must be non-negative"
                        else UnboundLocalError "x")).
  { unfold valid_axis in Hax.
    apply orb_false_iff in Hax as [Hxy Hz]. apply orb_false_iff in Hxy as [Hx Hy].
    unfold gen_circle, linspace. destruct center as [[c0 c1] c2].
    destruct (npoints <? 0)%Z; cbn [bind]; [reflexivity |].
    now rewrite Hx, Hy, Hz. }
  rewrite G. repeat split.
Qed.

Lemma gen_circle_invalid_axis_witness :
  valid_axis "w" = false
  /\ gen_circle (0, 0, 0) 1 "w" npoints_default = Raised (UnboundLocalError "x").
Proof.
  split; [reflexivity |].
  apply (gen_circle_invalid_axis (0, 0, 0) 1 "w" npoints_default). reflexivity.
Defined.

(** C7 as stated fails: for the axis ['w'] and the default 100 points
    the call raises [UnboundLocalError], which is neither a [ValueError]
    nor a [TypeError], so not of the invalid-argument kind. *)
Lemma gen_circle_invalid_axis_counterexample :
  gen_circle (0, 0, 0) 1 "w" 100 = Raised (UnboundLocalError "x")
  /\ kind_of (UnboundLocalError "x") <> Some InvalidArgument
  /\ isinstance (UnboundLocalError "x") cValueError = false
  /\ isinstance (UnboundLocalError "x") cTypeError = false.
Proof.
  split; [| repeat split; discriminate].
  unfold gen_circle, linspace. reflexivity.
Qed.

Section TransformFacts.

Variable num : Type.
Variable sub : num -> num -> num.
Variable transformlist : Type.
Variable apply_transforms_to_points :
  nat -> DataFrame num -> transformlist -> result (DataFrame num).

Lemma column_of_maps (f g h : num * num * num -> num) (l : DataFrame num) (i : nat) :
  column (map f l, map g l, map h l) i
  = option_map (fun p => (f p, g p, h p)) (nth_error l i).
Proof.
  unfold column. cbn [fst snd]. rewrite !nth_error_map.
  now destruct (nth_error l i).
Qed.

Lemma displacements_of (c : num * num * num) (rest : DataFrame num) :
  let p := (map (fun v => sub v (fst (fst c))) (column_x rest),
            map (fun v => sub v (snd (fst c))) (column_y rest),
            map (fun v => sub v (snd c)) (column_z rest)) in
  width p = length rest
  /\ forall i, column p i = option_map (fun q => displacement sub q c) (nth_error rest i).
Proof.
  unfold column_x, column_y, column_z, width. cbn [fst snd]. split.
  - now rewrite !length_map.
  - intros i. rewrite !map_map. apply column_of_maps.
Qed.

(** C9.  For a point set that starts with its centre [c], and an
    evaluator answer that starts with the transformed centre [c'],
    [transform_points] returns two arrays with one column per remaining
    point: column [i] of [p0] is [point[i+1] - point[0]], column [i] of
    [p1] is [transformed[i+1] - transformed[0]].  When the evaluator
    leaves the points as they are, [p0] and [p1] are the same. *)
Theorem transform_points_displacements
    (c : num * num * num) (rest : DataFrame num) (tl : transformlist)
    (c' : num * num * num) (rest' : DataFrame num) :
  apply_transforms_to_points 3%nat (c :: rest) tl = Returned (c' :: rest') ->
  exists p0 p1,
    transform_points sub apply_transforms_to_points (c :: rest) tl = Returned (p0, p1)
    /\ width p0 = length rest
    /\ width p1 = length rest'
    /\ (forall i, column p0 i
                  = option_map (fun q => displacement sub q c) (nth_error rest i))
    /\ (forall i, column p1 i
                  = option_map (fun q => displacement sub q c') (nth_error rest' i))
    /\ (c' :: rest' = c :: rest -> p0 = p1).
Proof.
  intros Hx. unfold transform_points. rewrite Hx.
  cbn [bind column_x column_y column_z map tail_minus_head].
  do 2 eexists. split; [reflexivity |].
  destruct (displacements_of c rest) as [W0 C0].
  destruct (displacements_of c' rest') as [W1 C1].
  repeat split; try assumption.
  intros E. injection E as -> ->. reflexivity.
Qed.

End TransformFacts.

Lemma transform_points_displacements_witness :
  shift_x 3 [(5, 5, 5); (6, 5, 5); (5, 7, 5)]%Z tt
    = Returned [(6, 5, 5); (7, 5, 5); (6, 7, 5)]%Z
  /\ exists p0 p1,
      transform_points Z.sub shift_x [(5, 5, 5); (6, 5, 5); (5, 7, 5)]%Z tt = Returned (p0, p1)
      /\ column p0 0 = Some (1, 0, 0)%Z
      /\ column p1 1 = Some (0, 2, 0)%Z.
Proof.
  split; [reflexivity |].
  destruct (transform_points_displacements Z Z.sub unit shift_x
              (5, 5, 5)%Z [(6, 5, 5); (5, 7, 5)]%Z tt
              (6, 5, 5)%Z [(7, 5, 5); (6, 7, 5)]%Z eq_refl)
    as (p0 & p1 & Ht & _ & _ & C0 & C1 & _).
  exists p0, p1. split; [exact Ht |]. split.
  - rewrite C0. reflexivity.
  - rewrite C1. reflexivity.
Defined.

End PointsFacts.

(** ** Ellipse parameters *)

Module ConicFacts.
Import Conic.
Local Open Scope float_scope.

Lemma eqb_zero_inv (y : float) :
  (y =? 0) = true -> exists s, Prim2SF y = S754_zero s.
Proof.
  rewrite FloatAxioms.eqb_spec. change (Prim2SF 0) with (S754_zero false).
  destruct (Prim2SF y) as [s | [|] | | [|] m e]; cbn; try discriminate.
  intros _. now exists s.
Qed.

Lemma ltb_zero_inv (x : float) :
  (x <? 0) = true ->
  Prim2SF x = S754_infinity true \/ exists m e, Prim2SF x = S754_finite true m e.
Proof.
  rewrite FloatAxioms.ltb_spec. change (Prim2SF 0) with (S754_zero false).
  destruct (Prim2SF x) as [s | [|] | | [|] m e]; cbn; try discriminate; intros _.
  - now left.
  - right. now exists m, e.
Qed.

(** A quotient by a zero is an infinity or NaN, whatever the numerator. *)
Lemma div_zero_not_finite (x y : float) :
  (y =? 0) = true -> is_finite (x / y) = false.
Proof.
  intros H. destruct (eqb_zero_inv y H) as [s Hy].
  unfold is_finite, is_nan, is_inf. rewrite FloatAxioms.div_spec, Hy.
  now destruct (Prim2SF x) as [? | ? | | ? ? ?].
Qed.

(** The square root of a negative number is NaN. *)
Lemma sqrt_negative_nan (x : float) :
  (x <? 0) = true -> is_nan (PrimFloat.sqrt x) = true.
Proof.
  intros H. unfold is_nan. rewrite FloatAxioms.sqrt_spec.
  destruct (ltb_zero_inv x H) as [-> | (m & e & ->)]; reflexivity.
Qed.

(** NaN goes through every operation of the closed form. *)
Lemma is_nan_inv (x : float) : is_nan x = true -> Prim2SF x = S754_nan.
Proof. unfold is_nan. now destruct (Prim2SF x). Qed.

Lemma nan_opp (x : float) : is_nan x = true -> is_nan (- x) = true.
Proof. intros H. unfold is_nan. now rewrite FloatAxioms.opp_spec, (is_nan_inv x H). Qed.

Lemma nan_div_l (x y : float) : is_nan x = true -> is_nan (x / y) = true.
Proof. intros H. unfold is_nan. now rewrite FloatAxioms.div_spec, (is_nan_inv x H). Qed.

Lemma nan_div_r (x y : float) : is_nan y = true -> is_nan (x / y) = true.
Proof.
  intros H. unfold is_nan. rewrite FloatAxioms.div_spec, (is_nan_inv y H).
  now destruct (Prim2SF x).
Qed.

Lemma nan_mul (x : float) : is_nan x = true -> is_nan (x * x) = true.
Proof. intros H. unfold is_nan. now rewrite FloatAxioms.mul_spec, (is_nan_inv x H). Qed.

Lemma nan_sub_r (x y : float) : is_nan y = true -> is_nan (x - y) = true.
Proof.
  intros H. unfold is_nan. rewrite FloatAxioms.sub_spec, (is_nan_inv y H).
  now destruct (Prim2SF x).
Qed.

Lemma nan_sqrt (x : float) : is_nan x = true -> is_nan (PrimFloat.sqrt x) = true.
Proof. intros H. unfold is_nan. now rewrite FloatAxioms.sqrt_spec, (is_nan_inv x H). Qed.

Lemma nan_not_finite (x : float) : is_nan x = true -> is_finite x = false.
Proof. unfold is_finite. now intros ->. Qed.

(** C3, as the code has it.  [get_ellipse_params] has no check of the
    fitted conic: whatever the fitter returns goes through the closed
    form, and the call returns.  When [B^2 - 4AC == 0] each of [a], [b],
    [x0], [y0] is a quotient by zero, hence an infinity or NaN; when the
    radicand of [a] or of [b] is negative that axis is NaN, and so is
    [ecc].  No result is clamped and no error is raised. *)
Theorem get_ellipse_params_no_degeneracy_check
    (arctan2 : float -> float -> float)
    (fit_ellipse_svd fit_ellipse_eig : list float -> list float -> result conic)
    (x y : list float) (method : string) :
  get_ellipse_params arctan2 fit_ellipse_svd fit_ellipse_eig x y method
  = match (if (method =? "svd")%string then fit_ellipse_svd x y else fit_ellipse_eig x y) with
    | Returned fit => Returned (ellipse_of_fit arctan2 fit)
    | Raised e => Raised e
    end
  /\ forall fit : conic,
       let e := ellipse_of_fit arctan2 fit in
       ((denominator fit =? 0) = true ->
          is_finite (a e) = false /\ is_finite (b e) = false
          /\ is_finite (x0 e) = false /\ is_finite (y0 e) = false)
       /\ ((radicand fit 1 <? 0) = true -> is_nan (a e) = true /\ is_nan (ecc e) = true)
       /\ ((radicand fit (-1) <? 0) = true -> is_nan (b e) = true /\ is_nan (ecc e) = true).
Proof.
  split; [reflexivity |].
  intros [A B C D E F]. cbv zeta. unfold ellipse_of_fit, denominator.
  cbn [a b x0 y0 ecc cA cB cC].
  split; [| split].
  - intros H. repeat split; now apply div_zero_not_finite.
  - intros H.
    assert (Ha : is_nan (- PrimFloat.sqrt (radicand (mk_conic A B C D E F) 1)
                         / (pow2 B - 4 * A * C)) = true).
    { now apply nan_div_l, nan_opp, sqrt_negative_nan. }
    split; [exact Ha |].
    now apply nan_sqrt, nan_sub_r, nan_div_r, nan_mul.
  - intros H.
    assert (Hb : is_nan (- PrimFloat.sqrt (radicand (mk_conic A B C D E F) (-1))
                         / (pow2 B - 4 * A * C)) = true).
    { now apply nan_div_l, nan_opp, sqrt_negative_nan. }
    split; [exact Hb |].
    now apply nan_sqrt, nan_sub_r, nan_div_l, nan_mul.
Qed.

(** C3 as stated fails.  The parabola has [B^2 - 4AC == 0]; the closed
    form returns for it, with [a = -inf], [y0 = -inf] and NaN for [b],
    [x0] and [ecc], and a call whose fitter found the parabola returns
    that dictionary instead of raising.  The hyperbola has a negative
    radicand under [a]; the closed form returns [a = NaN] for it. *)
Lemma degenerate_conic_counterexample :
  (denominator parabola =? 0) = true
  /\ (radicand hyperbola 1 <? 0) = true
  /\ forall (arctan2 : float -> float -> float) (x y : list float),
       get_ellipse_params arctan2 (fun _ _ => Returned parabola)
                          (fun _ _ => Returned parabola) x y "svd"
       = Returned (mk_ellipse parabola neg_infinity nan nan neg_infinity
                              (0.5 * arctan2 (- 0) (0 - 1)) nan)
       /\ a (ellipse_of_fit arctan2 hyperbola) = nan
       /\ ecc (ellipse_of_fit arctan2 hyperbola) = nan.
Proof.
  split; [vm_compute; reflexivity |].
  split; [vm_compute; reflexivity |].
  intros arctan2 x y. repeat split.
Qed.

(** The closed form depends on the sign of the coefficient vector, which
    a singular vector or an eigenvector leaves open: for the ellipse
    [x^2 + 4 y^2 - 4 = 0] it gives [a = 2], [b = 1]; for the same ellipse
    with every coefficient negated it gives [a = 1], [b = 2] and NaN for
    [ecc]. *)
Example sign_of_fit_exchanges_axes (arctan2 : float -> float -> float) :
  let e1 := ellipse_of_fit arctan2 (mk_conic 1 0 4 0 0 (-4)) in
  let e2 := ellipse_of_fit arctan2 (mk_conic (-1) 0 (-4) 0 0 4) in
  a e1 = 2 /\ b e1 = 1 /\ a e2 = 1 /\ b e2 = 2 /\ is_nan (ecc e2) = true.
Proof. repeat split. Qed.

End ConicFacts.

(** ** Calibration *)

Module CalibFacts.
Import Calib.

Lemma names_string_cannot_find (self : Calibration) (B0 : Q) (mimics m : string) :
  names_string (cannot_find self B0 mimics) m = (mimics =? m)%string.
Proof. unfold names_string, cannot_find. cbn. now rewrite orb_false_r. Qed.

(** C8 on the code.  For every mimic and field strength without an
    entry in the sheet table, [_get_vals] (and so [get_T1_vals] and
    [get_T2_vals]) raises [KeyError], a [LookupError].  Its message
    formats the requested mimic, the requested field strength and the
    keys of the outer table, which are the field strengths 3 and 1.5:
    besides the requested one it names no mechanism. *)
Theorem get_vals_unknown_sheet
    (read : list (string * sheet)) (temp : Q) (mimics column : string) (B0 : Q) :
  sheet_name (__init__ read) B0 mimics = None ->
  _get_vals (__init__ read) temp mimics column B0
  = Raised (KeyError (cannot_find (__init__ read) B0 mimics))
  /\ get_T1_vals (__init__ read) temp mimics B0
     = Raised (KeyError (cannot_find (__init__ read) B0 mimics))
  /\ get_T2_vals (__init__ read) temp mimics B0
     = Raised (KeyError (cannot_find (__init__ read) B0 mimics))
  /\ isinstance (KeyError (cannot_find (__init__ read) B0 mimics)) cLookupError = true
  /\ formatted (cannot_find (__init__ read) B0 mimics)
     = [FStr mimics; FNum B0; FDictKeys [3%Q; (3 # 2)%Q]]
  /\ forall m, names_string (cannot_find (__init__ read) B0 mimics) m = (mimics =? m)%string.
Proof.
  intros H.
  assert (G : forall col, _get_vals (__init__ read) temp mimics col B0
                          = Raised (KeyError (cannot_find (__init__ read) B0 mimics))).
  { intros col. unfold _get_vals. now rewrite H. }
  split; [apply G |]. split; [apply G |]. split; [apply G |].
  split; [reflexivity |]. split; [reflexivity |].
  intros m. apply names_string_cannot_find.
Qed.

Lemma get_vals_unknown_sheet_witness :
  sheet_name (__init__ []) (3 # 2) "CuSO4" = None
  /\ _get_vals (__init__ []) 20 "CuSO4" "T1" (3 # 2)
     = Raised (KeyError [ Lit "Cannot find sheet for "; Fmt (FStr "CuSO4"); Lit " at ";
                          Fmt (FNum (3 # 2)); Lit "T. Available sheets are ";
                          Fmt (FDictKeys [3%Q; (3 # 2)%Q]) ])
  /\ mechanisms_at (__init__ []) (3 # 2) = ["T1"; "T2"; "ADC"]%string
  /\ forallb (names_string (cannot_find (__init__ []) (3 # 2) "CuSO4"))
             (mechanisms_at (__init__ []) (3 # 2)) = false.
Proof.
  split; [reflexivity |].
  split; [apply (get_vals_unknown_sheet [] 20 "CuSO4" "T1" (3 # 2)); reflexivity |].
  split; reflexivity.
Defined.

End CalibFacts.

(** ** More on lists *)

Lemma repeat_as_map (A B : Type) (v : A) (l : list B) :
  repeat v (length l) = map (fun _ => v) l.
Proof. induction l as [|w l IH]; simpl; [reflexivity | now rewrite IH]. Qed.


(** ** Masks: centre, extent and empty masks *)

Module SphereFacts.
Import Mask Sphere MaskFacts.

Lemma wrap64_fits (z : Z) : fits_int64 z -> wrap64 z = z.
Proof.
  unfold fits_int64, wrap64. intros H.
  rewrite Z.mod_small by lia. lia.
Qed.

Lemma nth_error_arange (start stop : Z) (i : nat) :
  (Z.of_nat i < stop - start)%Z ->
  nth_error (arange start stop) i = Some (start + Z.of_nat i)%Z.
Proof.
  intros H. unfold arange. rewrite nth_error_map, nth_error_seq.
  replace (i <? Z.to_nat (stop - start))%nat with true
    by (symmetry; apply Nat.ltb_lt; lia).
  reflexivity.
Qed.

Lemma half_split (n : nat) : (Z.of_nat n / 2 - (- Z.of_nat n) / 2 = Z.of_nat n)%Z.
Proof. Z.div_mod_to_equations. lia. Qed.

(** Entry [i] of [np.arange(-n//2, n//2) + c]. *)
Lemma nth_error_axis (n : nat) (c : Z) (i : nat) :
  (i < n)%nat ->
  nth_error (axis n c) i = Some (wrap64 ((- Z.of_nat n) / 2 + Z.of_nat i + c)).
Proof.
  intros H. unfold axis. rewrite nth_error_map, nth_error_arange.
  - reflexivity.
  - rewrite half_split. lia.
Qed.

Lemma map2_3_tabulate (A B C D E F : Type) (f : D -> E -> F)
    (ga : A -> B -> C -> D) (gb : A -> B -> C -> E)
    (us : list A) (vs : list B) (ws : list C) (sh sh' : nat * nat * nat) :
  map2_3 f (mk_ndarray3 sh (tabulate3 ga us vs ws)) (mk_ndarray3 sh' (tabulate3 gb us vs ws))
  = mk_ndarray3 sh (tabulate3 (fun u v w => f (ga u v w) (gb u v w)) us vs ws).
Proof.
  unfold map2_3, tabulate3. cbn [shape3 planes]. f_equal.
  rewrite combine_map_same, map_map. apply map_ext. intros u. cbn [fst snd].
  rewrite combine_map_same, map_map. apply map_ext. intros v. cbn [fst snd].
  rewrite combine_map_same, map_map. reflexivity.
Qed.

Lemma map1_3_tabulate (A B C D E : Type) (f : D -> E) (g : A -> B -> C -> D)
    (us : list A) (vs : list B) (ws : list C) (sh : nat * nat * nat) :
  map1_3 f (mk_ndarray3 sh (tabulate3 g us vs ws))
  = mk_ndarray3 sh (tabulate3 (fun u v w => f (g u v w)) us vs ws).
Proof.
  unfold map1_3, tabulate3. cbn [shape3 planes]. f_equal.
  rewrite map_map. apply map_ext. intros u.
  rewrite map_map. apply map_ext. intros v.
  now rewrite map_map.
Qed.

Lemma zeros3_tabulate (A B C : Type) (us : list A) (vs : list B) (ws : list C) :
  zeros3 (length us, length vs, length ws)
  = mk_ndarray3 (length us, length vs, length ws)
                (tabulate3 (fun _ _ _ => 0%float) us vs ws).
Proof.
  unfold zeros3, tabulate3. f_equal.
  rewrite (repeat_as_map _ _ (repeat (repeat 0%float (length ws)) (length vs)) us).
  apply map_ext. intros _.
  rewrite (repeat_as_map _ _ (repeat 0%float (length ws)) vs).
  apply map_ext. intros _.
  apply repeat_as_map.
Qed.

Lemma meshgrid3_tabulate (A : Type) (xs ys zs : list A) :
  meshgrid3 xs ys zs
  = (mk_ndarray3 (length ys, length xs, length zs) (tabulate3 (fun _ v _ => v) ys xs zs),
     mk_ndarray3 (length ys, length xs, length zs) (tabulate3 (fun u _ _ => u) ys xs zs),
     mk_ndarray3 (length ys, length xs, length zs) (tabulate3 (fun _ _ w => w) ys xs zs)).
Proof.
  unfold meshgrid3, tabulate3. now rewrite map_id.
Qed.

(** [make_sphere] in closed form: the cell at [(i, j, k)] is decided by
    the entries [i], [j], [k] of the x, y and z axes. *)
Lemma make_sphere_tabulate (nx ny nz : nat) (radius : float) (c0 c1 c2 : Z) :
  make_sphere (nx, ny, nz) radius (c0, c1, c2)
  = Returned (mk_ndarray3 (nx, ny, nz)
      (tabulate3 (fun u v w => if (dist3 u v w <? radius)%float then 1%float else 0%float)
         (axis nx (Z.of_nat nx - c0 - Z.of_nat nx / 2))
         (axis ny (Z.of_nat ny - c1 - Z.of_nat ny / 2))
         (axis nz (Z.of_nat nz - c2 - Z.of_nat nz / 2)))).
Proof.
  unfold make_sphere.
  set (ax := axis nx _). set (ay := axis ny _). set (az := axis nz _).
  assert (Lx : length ax = nx) by apply axis_length.
  assert (Ly : length ay = ny) by apply axis_length.
  assert (Lz : length az = nz) by apply axis_length.
  rewrite meshgrid3_tabulate.
  rewrite !map2_3_tabulate, map1_3_tabulate.
  rewrite <- Lx, <- Ly, <- Lz at 1. rewrite zeros3_tabulate.
  unfold setitem_mask3, axis_matches. cbn [shape3].
  rewrite Lx, Ly, Lz, !Nat.eqb_refl, !orb_true_r. cbn [negb andb].
  rewrite map2_3_tabulate. reflexivity.
Qed.

Lemma cell3_tabulate (A B C D : Type) (g : A -> B -> C -> D)
    (us : list A) (vs : list B) (ws : list C) (sh : nat * nat * nat) (i j k : nat) :
  cell3 (mk_ndarray3 sh (tabulate3 g us vs ws)) i j k
  = match nth_error us i, nth_error vs j, nth_error ws k with
    | Some u, Some v, Some w => Some (g u v w)
    | _, _, _ => None
    end.
Proof.
  unfold cell3, tabulate3. cbn [planes]. rewrite nth_error_map.
  destruct (nth_error us i) as [u|]; cbn [option_map]; [| reflexivity].
  rewrite nth_error_map.
  destruct (nth_error vs j) as [v|]; cbn [option_map]; [| reflexivity].
  rewrite nth_error_map.
  now destruct (nth_error ws k).
Qed.

Lemma nth_error_in_range (A : Type) (l : list A) (i : nat) :
  (i < length l)%nat -> exists v, nth_error l i = Some v.
Proof.
  intros H. destruct (nth_error l i) as [v|] eqn:E; [now exists v |].
  apply nth_error_None in E. lia.
Qed.

(** [make_sphere] returns a mask for every shape, cubic or not, and
    every centre whose offsets [cx], [cy], [cz] fit [int64]: the mesh is
    built from the y axis first, so the distance array has the shape
    [(nx, ny, nz)] of the output.  The mask has a cell exactly at the
    indices within that shape, and every cell holds 0 or 1. *)
Theorem make_sphere_any_shape (nx ny nz : nat) (radius : float) (c0 c1 c2 : Z) :
  fits_int64 (Z.of_nat nx - c0 - Z.of_nat nx / 2) ->
  fits_int64 (Z.of_nat ny - c1 - Z.of_nat ny / 2) ->
  fits_int64 (Z.of_nat nz - c2 - Z.of_nat nz / 2) ->
  exists m,
    make_sphere (nx, ny, nz) radius (c0, c1, c2) = Returned m
    /\ shape3 m = (nx, ny, nz)
    /\ forall i j k,
         ((i < nx)%nat /\ (j < ny)%nat /\ (k < nz)%nat ->
            cell3 m i j k = Some 0%float \/ cell3 m i j k = Some 1%float)
         /\ (cell3 m i j k <> None -> (i < nx)%nat /\ (j < ny)%nat /\ (k < nz)%nat).
Proof.
  intros _ _ _.
  rewrite make_sphere_tabulate. eexists. split; [reflexivity |].
  split; [reflexivity |].
  intros i j k. rewrite cell3_tabulate. split.
  - intros (Hi & Hj & Hk).
    destruct (nth_error_in_range _ (axis nx (Z.of_nat nx - c0 - Z.of_nat nx / 2)) i)
      as [u ->]; [now rewrite axis_length |].
    destruct (nth_error_in_range _ (axis ny (Z.of_nat ny - c1 - Z.of_nat ny / 2)) j)
      as [v ->]; [now rewrite axis_length |].
    destruct (nth_error_in_range _ (axis nz (Z.of_nat nz - c2 - Z.of_nat nz / 2)) k)
      as [w ->]; [now rewrite axis_length |].
    destruct (dist3 u v w <? radius)%float; auto.
  - intros H.
    destruct (nth_error _ i) eqn:Ei; [| now elim H].
    destruct (nth_error _ j) eqn:Ej; [| now elim H].
    destruct (nth_error _ k) eqn:Ek; [| now elim H].
    assert (Hi := proj1 (nth_error_Some _ i) ltac:(rewrite Ei; discriminate)).
    assert (Hj := proj1 (nth_error_Some _ j) ltac:(rewrite Ej; discriminate)).
    assert (Hk := proj1 (nth_error_Some _ k) ltac:(rewrite Ek; discriminate)).
    rewrite axis_length in Hi, Hj, Hk. auto.
Qed.

Lemma make_sphere_any_shape_witness :
  exists m,
    make_sphere (2, 3, 4)%nat 1.5%float (1, 1, 2)%Z = Returned m
    /\ shape3 m = (2, 3, 4)%nat
    /\ forall i j k,
         ((i < 2)%nat /\ (j < 3)%nat /\ (k < 4)%nat ->
            cell3 m i j k = Some 0%float \/ cell3 m i j k = Some 1%float)
         /\ (cell3 m i j k <> None -> (i < 2)%nat /\ (j < 3)%nat /\ (k < 4)%nat).
Proof.
  apply (make_sphere_any_shape 2%nat 3%nat 4%nat 1.5%float 1%Z 1%Z 2%Z);
    unfold fits_int64; cbn; lia.
Defined.

(** Entry [i] of the axis of [make_sphere] is the offset [i - c] from the
    centre index [c]. *)
Lemma nth_error_sphere_axis (n : nat) (c : Z) (i : nat) :
  (i < n)%nat -> fits_int64 (- c) -> fits_int64 (Z.of_nat n - c) ->
  nth_error (axis n (Z.of_nat n - c - Z.of_nat n / 2)) i = Some (Z.of_nat i - c)%Z.
Proof.
  intros Hi Hlo Hhi. rewrite nth_error_axis by exact Hi.
  f_equal. pose proof (half_split n) as Hs.
  rewrite wrap64_fits; unfold fits_int64 in *; lia.
Qed.

(** The sphere of [make_sphere] is centred at the voxel index [center]:
    the cell at [(i, j, k)] holds 1 exactly when the float64 distance of
    the offsets [(i - c0, j - c1, k - c2)] is below the radius, for a
    centre whose offsets to both ends of each axis fit [int64]. *)
Theorem make_sphere_centred_at_index
    (nx ny nz : nat) (radius : float) (c0 c1 c2 : Z) :
  fits_int64 (- c0) -> fits_int64 (Z.of_nat nx - c0) ->
  fits_int64 (- c1) -> fits_int64 (Z.of_nat ny - c1) ->
  fits_int64 (- c2) -> fits_int64 (Z.of_nat nz - c2) ->
  exists m,
    make_sphere (nx, ny, nz) radius (c0, c1, c2) = Returned m
    /\ forall i j k, (i < nx)%nat -> (j < ny)%nat -> (k < nz)%nat ->
         cell3 m i j k
         = Some (if (dist3 (Z.of_nat i - c0) (Z.of_nat j - c1) (Z.of_nat k - c2) <? radius)%float
                 then 1%float else 0%float).
Proof.
  intros H0 H0' H1 H1' H2 H2'.
  rewrite make_sphere_tabulate. eexists. split; [reflexivity |].
  intros i j k Hi Hj Hk. rewrite cell3_tabulate.
  now rewrite !nth_error_sphere_axis by assumption.
Qed.

Lemma make_sphere_centred_at_index_witness :
  exists m,
    make_sphere (4, 6, 5)%nat 2%float (1, 3, 2)%Z = Returned m
    /\ cell3 m 1 3 2 = Some 1%float
    /\ cell3 m 1 3 4 = Some 0%float.
Proof.
  destruct (make_sphere_centred_at_index 4 6 5 2%float 1 3 2) as (m & Hm & Hc);
    try (unfold fits_int64; cbn; lia).
  exists m. split; [exact Hm |]. split.
  - rewrite (Hc 1%nat 3%nat 2%nat) by lia. reflexivity.
  - rewrite (Hc 1%nat 3%nat 4%nat) by lia. reflexivity.
Defined.

Lemma cell_rows (A B C : Type) (g : A -> B -> C) (us : list A) (vs : list B)
    (sh : nat * nat) (i j : nat) :
  cell (mk_ndarray sh (map (fun u => map (fun v => g u v) vs) us)) i j
  = match nth_error us i, nth_error vs j with
    | Some u, Some v => Some (g u v)
    | _, _ => None
    end.
Proof.
  unfold cell. cbn [rows]. rewrite nth_error_map.
  destruct (nth_error us i) as [u|]; cbn [option_map]; [| reflexivity].
  rewrite nth_error_map. now destruct (nth_error vs j).
Qed.

(** Entry [j] of the axis of [make_circle]: the offset of [j] from the
    index [(n + 1) // 2 - c]. *)
Lemma nth_error_circle_axis (n : nat) (c : Z) (j : nat) :
  (j < n)%nat ->
  fits_int64 (c - (Z.of_nat n + 1) / 2) -> fits_int64 (Z.of_nat n + c - (Z.of_nat n + 1) / 2) ->
  nth_error (axis n c) j = Some (Z.of_nat j - ((Z.of_nat n + 1) / 2 - c))%Z.
Proof.
  intros Hj Hlo Hhi. rewrite nth_error_axis by exact Hj. f_equal.
  assert (Hh : ((- Z.of_nat n) / 2 = - ((Z.of_nat n + 1) / 2))%Z)
    by (Z.div_mod_to_equations; lia).
  rewrite Hh. rewrite wrap64_fits; unfold fits_int64 in *; lia.
Qed.

(** The disc of [make_circle] on an [n] by [n] image is centred at
    column [(n + 1) // 2 - center[0]] and row [(n + 1) // 2 - center[1]]:
    [center] moves it towards the lower indices, and its first entry
    runs along the rows (axis 1).  The cell at row [i], column [j] holds
    1 exactly when the float64 distance of the two offsets is below the
    radius. *)
Theorem make_circle_centred_at_index (n : nat) (radius : float) (c0 c1 : Z) :
  let h := ((Z.of_nat n + 1) / 2)%Z in
  fits_int64 (c0 - h) -> fits_int64 (Z.of_nat n + c0 - h) ->
  fits_int64 (c1 - h) -> fits_int64 (Z.of_nat n + c1 - h) ->
  exists m,
    make_circle (n, n) radius (c0, c1) = Returned m
    /\ shape m = (n, n)
    /\ forall i j, (i < n)%nat -> (j < n)%nat ->
         cell m i j
         = Some (if (dist (Z.of_nat j - (h - c0)) (Z.of_nat i - (h - c1)) <? radius)%float
                 then 1%float else 0%float).
Proof.
  intros h H0 H0' H1 H1'.
  rewrite make_circle_square. eexists. split; [reflexivity |]. split; [reflexivity |].
  intros i j Hi Hj. cbn [fst snd]. rewrite cell_rows.
  now rewrite !nth_error_circle_axis by assumption.
Qed.

Lemma make_circle_centred_at_index_witness :
  exists m,
    make_circle (7, 7)%nat 2%float (1, 0)%Z = Returned m
    /\ cell m 4 3 = Some 1%float
    /\ cell m 4 5 = Some 0%float.
Proof.
  destruct (make_circle_centred_at_index 7 2%float 1 0) as (m & Hm & _ & Hc);
    try (unfold fits_int64; cbn; lia).
  exists m. split; [exact Hm |]. split.
  - rewrite (Hc 4%nat 3%nat) by lia. reflexivity.
  - rewrite (Hc 4%nat 5%nat) by lia. reflexivity.
Defined.

Lemma zeros_tabulate (A B : Type) (us : list A) (vs : list B) :
  zeros (length us, length vs)
  = mk_ndarray (length us, length vs) (map (fun _ => map (fun _ => 0%float) vs) us).
Proof.
  unfold zeros. cbn [fst snd]. f_equal.
  rewrite (repeat_as_map _ _ (repeat 0%float (length vs)) us).
  apply map_ext. intros _. apply repeat_as_map.
Qed.

(** A float64 square root is never negative: it is NaN, a zero, a
    positive number or [+inf]. *)
Lemma binary_round_aux_sign (m e : Z) (l : SpecFloat.location) :
  match binary_round_aux prec emax false m e l with
  | S754_infinity true | S754_finite true _ _ => False
  | _ => True
  end.
Proof.
  unfold binary_round_aux.
  destruct (shr_fexp prec emax m e l) as [mrs' e'].
  destruct (shr_fexp prec emax _ e' loc_Exact) as [mrs'' e''].
  destruct (shr_m mrs'') as [|p|p]; try exact I.
  - now destruct (e'' <=? emax - prec)%Z.
Qed.

Lemma sqrt_below_nothing_nonpositive (v r : float) :
  (0 <? r)%float = false -> (PrimFloat.sqrt v <? r)%float = false.
Proof.
  rewrite !FloatAxioms.ltb_spec, FloatAxioms.sqrt_spec.
  change (Prim2SF 0) with (S754_zero false).
  unfold SF64sqrt, SFsqrt.
  destruct (Prim2SF v) as [sv | [|] | | [|] mv ev];
    destruct (Prim2SF r) as [sr | [|] | | [|] mr er]; cbn; try reflexivity; try discriminate.
  all: intros _.
  all: destruct (SFsqrt_core_binary prec emax (Z.pos mv) ev) as [[mz ez] lz].
  all: pose proof (binary_round_aux_sign mz ez lz) as Hs.
  all: destruct (binary_round_aux prec emax false mz ez lz) as [s | [|] | | [|] m e];
    cbn; try reflexivity; try contradiction.
Qed.

(** A radius that is not positive (zero, negative or NaN) gives the
    empty mask, [np.zeros(shape)]: no distance is below it.  The centre
    is one numpy accepts: the integers added to the index axes fit
    [int64]. *)
Theorem nonpositive_radius_gives_empty_mask (radius : float) :
  (0 <? radius)%float = false ->
  (forall n center,
     fits_int64 (fst center) -> fits_int64 (snd center) ->
     make_circle (n, n) radius center = Returned (zeros (n, n)))
  /\ (forall nx ny nz c0 c1 c2,
        fits_int64 (Z.of_nat nx - c0 - Z.of_nat nx / 2) ->
        fits_int64 (Z.of_nat ny - c1 - Z.of_nat ny / 2) ->
        fits_int64 (Z.of_nat nz - c2 - Z.of_nat nz / 2) ->
        make_sphere (nx, ny, nz) radius (c0, c1, c2) = Returned (zeros3 (nx, ny, nz))).
Proof.
  intros Hr. split.
  - intros n center _ _. rewrite make_circle_square. f_equal.
    replace (zeros (n, n)) with (zeros (length (axis n (snd center)), length (axis n (fst center))))
      by now rewrite !axis_length.
    rewrite zeros_tabulate, !axis_length. f_equal.
    apply map_ext. intros y. apply map_ext. intros x.
    unfold dist. now rewrite sqrt_below_nothing_nonpositive.
  - intros nx ny nz c0 c1 c2 _ _ _. rewrite make_sphere_tabulate. f_equal.
    set (ax := axis nx _). set (ay := axis ny _). set (az := axis nz _).
    replace (zeros3 (nx, ny, nz)) with (zeros3 (length ax, length ay, length az))
      by (unfold ax, ay, az; now rewrite !axis_length).
    rewrite zeros3_tabulate. unfold ax, ay, az. rewrite !axis_length. f_equal.
    unfold tabulate3. apply map_ext. intros u. apply map_ext. intros v.
    apply map_ext. intros w. unfold dist3. now rewrite sqrt_below_nothing_nonpositive.
Qed.

Lemma nonpositive_radius_gives_empty_mask_witness :
  make_circle (3, 3)%nat (-1)%float (0, 0)%Z = Returned (zeros (3, 3)%nat)
  /\ make_sphere (2, 3, 4)%nat nan (0, 0, 0)%Z = Returned (zeros3 (2, 3, 4)%nat).
Proof.
  split.
  - apply (nonpositive_radius_gives_empty_mask (-1)%float eq_refl);
      unfold fits_int64; cbn; lia.
  - apply (nonpositive_radius_gives_empty_mask nan eq_refl);
      unfold fits_int64; cbn; lia.
Defined.

End SphereFacts.

(** ** Sampling and fitting: how the functions compose *)

Module FitFacts.
Import Points Fit PointsFacts.
Local Open Scope R_scope.

(** Every point of the parameterisation of [get_ellipse] satisfies the
    equation of the conic of the ellipse. *)
Lemma ellipse_point_on_conic (a b theta x0 y0 t : R) :
  dot_vv (design_row (ellipse_point a b theta x0 y0 t))
         (coefficients (conic_of_ellipse a b theta x0 y0)) = 0.
Proof.
  unfold dot_vv, design_row, coefficients, conic_of_ellipse, ellipse_point.
  cbn [combine map fold_right fst snd qA qB qC qD qE qF].
  pose proof (sin2_cos2 t) as Ht. pose proof (sin2_cos2 theta) as Hth.
  unfold Rsqr in Ht, Hth.
  set (st := sin t) in *. set (ct := cos t) in *.
  set (s := sin theta) in *. set (c := cos theta) in *.
  transitivity (a * a * b * b
                * ((s * s + c * c) * (s * s + c * c) * (st * st + ct * ct) - 1)).
  - ring.
  - rewrite Hth, Ht. ring.
Qed.

(** [get_ellipse] followed by the design matrix of the fitters: for every
    ellipse and every sample count [n >= 0] the sampler returns [n]
    abscissas and [n] ordinates, their design matrix has [n] rows, and the
    coefficient vector of the ellipse's conic is in its null space (every
    sample lies on the conic). *)
Theorem get_ellipse_samples_on_conic (a b theta x0 y0 : R) (n : nat) :
  exists x_el y_el D,
    get_ellipse a b theta x0 y0 (Z.of_nat n) = Returned (x_el, y_el)
    /\ length x_el = n /\ length y_el = n
    /\ design_matrix x_el y_el = Returned D
    /\ length D = n
    /\ dot_mv D (coefficients (conic_of_ellipse a b theta x0 y0)) = repeat 0 n.
Proof.
  unfold get_ellipse. rewrite linspace_of_nat. cbn [bind].
  set (t := map (fun v => v * PI * 2) (linspace_samples 0 1 n)).
  assert (Lt : length t = n)
    by (unfold t; now rewrite length_map, linspace_samples_length).
  do 3 eexists. split; [reflexivity |].
  split; [now rewrite length_map |]. split; [now rewrite length_map |].
  unfold design_matrix. rewrite !length_map, Nat.eqb_refl.
  split; [reflexivity |].
  rewrite combine_map_same.
  split; [now rewrite !length_map |].
  unfold dot_mv. rewrite !map_map. rewrite <- Lt, repeat_as_map.
  apply map_ext. intros u. apply (ellipse_point_on_conic a b theta x0 y0 u).
Qed.

(** The constraint matrix of [fit_ellipse_eig] carries the quantity that
    [get_ellipse_params] divides by: for every coefficient vector [v] the
    quadratic form [v . (C v)] is [4AC - B^2], the opposite of the
    denominator [B^2 - 4AC]. *)
Theorem constraint_matrix_form (q : conic) :
  dot_vv (coefficients q) (dot_mv constraint_matrix (coefficients q))
  = 4 * qA q * qC q - qB q * qB q
  /\ dot_vv (coefficients q) (dot_mv constraint_matrix (coefficients q)) = - denominator q.
Proof.
  destruct q as [A B C D E F].
  unfold denominator, dot_mv, dot_vv, constraint_matrix, set_entry, coefficients.
  cbn [qA qB qC qD qE qF repeat length seq combine map fst snd Nat.eqb fold_right].
  split; ring.
Qed.

Lemma sqrt_scaled_square (k x : R) : 0 <= x -> R_sqrt.sqrt (k * k * x) = Rabs k * R_sqrt.sqrt x.
Proof.
  intros Hx. rewrite sqrt_mult by nra.
  f_equal. fold (Rsqr k). apply sqrt_Rsqr_abs.
Qed.

(** The radicand of a scaled conic: the fourth power of the factor comes
    out, and a negative factor exchanges the two signs. *)
Lemma radicand_scale (k : R) (q : conic) (sign : R) :
  radicand (scale k q) sign
  = k * k * k * k * radicand q (if Rlt_dec k 0 then - sign else sign).
Proof.
  destruct q as [A B C D E F]. unfold scale, radicand. cbn [qA qB qC qD qE qF].
  replace ((k * A - k * C) * (k * A - k * C) + k * B * (k * B))
    with (k * k * ((A - C) * (A - C) + B * B)) by ring.
  rewrite sqrt_scaled_square
    by (pose proof (Rle_0_sqr (A - C)); pose proof (Rle_0_sqr B); unfold Rsqr in *; lra).
  destruct (Rlt_dec k 0) as [Hk|Hk].
  - rewrite Rabs_left by exact Hk. ring.
  - rewrite Rabs_right by lra. ring.
Qed.

Lemma sqrt_fourth (k x : R) : 0 <= x -> R_sqrt.sqrt (k * k * k * k * x) = k * k * R_sqrt.sqrt x.
Proof.
  intros Hx. replace (k * k * k * k * x) with ((k * k) * (k * k) * x) by ring.
  rewrite sqrt_scaled_square by exact Hx.
  rewrite Rabs_right by nra. reflexivity.
Qed.

(** The closed form of [get_ellipse_params] and the scale of the fitted
    vector, on the real numbers, for a conic with a non-zero denominator
    and non-negative radicands: the centre does not depend on the
    factor; a positive factor leaves [a] and [b] as they are, a negative
    factor (the opposite singular vector or eigenvector) exchanges them. *)
Theorem ellipse_of_fit_scale (arctan2 : R -> R -> R) (k : R) (q : conic) :
  k <> 0 -> denominator q <> 0 -> 0 <= radicand q 1 -> 0 <= radicand q (-1) ->
  let e := ellipse_of_fit arctan2 q in
  let e' := ellipse_of_fit arctan2 (scale k q) in
  x0 e' = x0 e /\ y0 e' = y0 e
  /\ (0 < k -> a e' = a e /\ b e' = b e)
  /\ (k < 0 -> a e' = b e /\ b e' = a e).
Proof.
  intros Hk Hd Hp Hm. cbv zeta.
  pose proof (radicand_scale k q 1) as R1.
  pose proof (radicand_scale k q (-1)) as R2.
  destruct q as [A B C D E F].
  unfold denominator in Hd. unfold ellipse_of_fit, scale in *.
  cbn [qA qB qC qD qE qF a b x0 y0] in *.
  assert (Hd' : k * B * (k * B) - 4 * (k * A) * (k * C) <> 0).
  { replace (k * B * (k * B) - 4 * (k * A) * (k * C))
      with (k * k * (B * B - 4 * A * C)) by ring.
    apply Rmult_integral_contrapositive_currified; [| exact Hd].
    now apply Rmult_integral_contrapositive_currified. }
  split; [field; repeat split; assumption |].
  split; [field; repeat split; assumption |].
  split; intros Hs; rewrite R1, R2.
  - destruct (Rlt_dec k 0) as [Hn|_]; [lra |].
    rewrite !sqrt_fourth by assumption.
    split; field; repeat split; assumption.
  - destruct (Rlt_dec k 0) as [_|Hn]; [| lra].
    replace (- (1)) with (-1) by ring. replace (- (-1)) with 1 by ring.
    rewrite !sqrt_fourth by assumption.
    split; field; repeat split; assumption.
Qed.

Lemma ellipse_of_fit_scale_witness :
  let q := Fit.mk_conic 1 0 4 0 0 (-4) in
  a (ellipse_of_fit (fun _ _ => 0) (scale (-1) q)) = b (ellipse_of_fit (fun _ _ => 0) q)
  /\ b (ellipse_of_fit (fun _ _ => 0) (scale (-1) q)) = a (ellipse_of_fit (fun _ _ => 0) q).
Proof.
  assert (H9 : R_sqrt.sqrt ((1 - 4) * (1 - 4) + 0 * 0) = 3).
  { replace ((1 - 4) * (1 - 4) + 0 * 0) with (3 * 3) by ring. apply sqrt_square. lra. }
  apply (ellipse_of_fit_scale (fun _ _ => 0) (-1) (Fit.mk_conic 1 0 4 0 0 (-4))).
  - lra.
  - unfold denominator. cbn [qA qB qC]. lra.
  - unfold radicand. rewrite H9. lra.
  - unfold radicand. rewrite H9. lra.
  - lra.
Defined.

Lemma ellipse_of_fit_fields (arctan2 : R -> R -> R) (q : conic) :
  a (ellipse_of_fit arctan2 q) = - R_sqrt.sqrt (radicand q 1) / denominator q
  /\ b (ellipse_of_fit arctan2 q) = - R_sqrt.sqrt (radicand q (-1)) / denominator q
  /\ x0 (ellipse_of_fit arctan2 q) = (2 * qC q * qD q - qB q * qE q) / denominator q
  /\ y0 (ellipse_of_fit arctan2 q) = (2 * qA q * qE q - qB q * qD q) / denominator q
  /\ ecc (ellipse_of_fit arctan2 q)
     = R_sqrt.sqrt (1 - (b (ellipse_of_fit arctan2 q) * b (ellipse_of_fit arctan2 q))
                        / (a (ellipse_of_fit arctan2 q) * a (ellipse_of_fit arctan2 q))).
Proof. destruct q. repeat split. Qed.

Lemma denominator_scale (k : R) (q : conic) :
  denominator (scale k q) = k * k * denominator q.
Proof. destruct q. unfold denominator, scale. cbn [qA qB qC]. ring. Qed.

Section EllipseConic.

Variables a b theta x0 y0 : R.
Hypothesis b_positive : 0 < b.
Hypothesis a_major : b <= a.

Let K := conic_of_ellipse a b theta x0 y0.

Lemma conic_of_ellipse_denominator : denominator K = - (4 * a * a * b * b).
Proof.
  unfold K, denominator, conic_of_ellipse. cbn [qA qB qC].
  pose proof (sin2_cos2 theta) as Hth. unfold Rsqr in Hth.
  set (s := sin theta) in *. set (c := cos theta) in *.
  transitivity (- (4 * a * a * b * b * ((s * s + c * c) * (s * s + c * c)))).
  - ring.
  - rewrite Hth. ring.
Qed.

Lemma conic_of_ellipse_radicand (sign : R) :
  radicand K sign
  = 8 * (a * a * a * a) * (b * b * b * b) * ((a * a + b * b) + sign * (a * a - b * b)).
Proof.
  unfold K, radicand, conic_of_ellipse.
  pose proof (sin2_cos2 theta) as Hth. unfold Rsqr in Hth.
  set (s := sin theta) in *. set (c := cos theta) in *.
  match goal with
  | |- context [R_sqrt.sqrt ?X] =>
      replace X with ((a * a - b * b) * (a * a - b * b) * ((s * s + c * c) * (s * s + c * c)))
        by ring
  end.
  rewrite Hth.
  replace ((a * a - b * b) * (a * a - b * b) * (1 * 1))
    with ((a * a - b * b) * (a * a - b * b)) by ring.
  rewrite sqrt_square by nra.
  transitivity (8 * (a * a * a * a) * (b * b * b * b) * ((s * s + c * c) * (s * s + c * c))
                * ((a * a + b * b) * (s * s + c * c) + sign * (a * a - b * b))).
  - ring.
  - rewrite Hth. ring.
Qed.

Lemma conic_of_ellipse_centre :
  2 * qC K * qD K - qB K * qE K = denominator K * x0
  /\ 2 * qA K * qE K - qB K * qD K = denominator K * y0.
Proof.
  unfold K, denominator, conic_of_ellipse. cbn [qA qB qC qD qE]. split; ring.
Qed.

End EllipseConic.

(** Round trip of the parameters, on the real numbers.  For an ellipse
    with semi-axes [a >= b > 0], the closed form of [get_ellipse_params]
    applied to a non-zero multiple [k] of the coefficient vector of its
    conic returns the centre [(x0, y0)]; for [k > 0] it returns [a], [b]
    and [ecc = sqrt (1 - b^2 / a^2)]; for [k < 0] it returns the two
    semi-axes exchanged. *)
Theorem ellipse_parameters_round_trip
    (arctan2 : R -> R -> R) (a0 b0 theta0 cx cy k : R) :
  0 < b0 -> b0 <= a0 -> k <> 0 ->
  let e := ellipse_of_fit arctan2 (scale k (conic_of_ellipse a0 b0 theta0 cx cy)) in
  x0 e = cx /\ y0 e = cy
  /\ (0 < k -> a e = a0 /\ b e = b0 /\ ecc e = R_sqrt.sqrt (1 - (b0 * b0) / (a0 * a0)))
  /\ (k < 0 -> a e = b0 /\ b e = a0).
Proof.
  intros Hb Ha Hk. cbv zeta.
  set (K := conic_of_ellipse a0 b0 theta0 cx cy).
  destruct (ellipse_of_fit_fields arctan2 (scale k K)) as (Fa & Fb & Fx & Fy & Fe).
  pose proof (conic_of_ellipse_denominator a0 b0 theta0 cx cy) as Hden. fold K in Hden.
  pose proof (conic_of_ellipse_centre a0 b0 theta0 cx cy) as [Hx Hy]. fold K in Hx, Hy.
  pose proof (fun s => conic_of_ellipse_radicand a0 b0 theta0 cx cy Hb Ha s) as Hrad.
  fold K in Hrad.
  assert (Ha0 : a0 <> 0) by lra. assert (Hb0 : b0 <> 0) by lra.
  assert (Hp : radicand K 1 = (4 * a0 * a0 * a0 * b0 * b0) * (4 * a0 * a0 * a0 * b0 * b0))
    by (rewrite Hrad; ring).
  assert (Hm : radicand K (-1) = (4 * a0 * a0 * b0 * b0 * b0) * (4 * a0 * a0 * b0 * b0 * b0))
    by (rewrite Hrad; ring).
  assert (Pp : 0 <= 4 * a0 * a0 * a0 * b0 * b0)
    by (assert (0 < a0) by lra; repeat apply Rmult_le_pos; lra).
  assert (Pm : 0 <= 4 * a0 * a0 * b0 * b0 * b0)
    by (assert (0 < a0) by lra; repeat apply Rmult_le_pos; lra).
  assert (Sx : 2 * qC (scale k K) * qD (scale k K) - qB (scale k K) * qE (scale k K)
               = k * k * (denominator K * cx))
    by (rewrite <- Hx; destruct K; cbn [scale qA qB qC qD qE]; ring).
  assert (Sy : 2 * qA (scale k K) * qE (scale k K) - qB (scale k K) * qD (scale k K)
               = k * k * (denominator K * cy))
    by (rewrite <- Hy; destruct K; cbn [scale qA qB qC qD qE]; ring).
  rewrite Fe, Fa, Fb, Fx, Fy, Sx, Sy, !radicand_scale, denominator_scale, Hden.
  split; [field; auto |]. split; [field; auto |].
  split; intros Hs.
  - destruct (Rlt_dec k 0) as [Hn|_]; [lra |].
    rewrite Hp, Hm, !sqrt_fourth, !sqrt_square by nra.
    assert (Ea : - (k * k * (4 * a0 * a0 * a0 * b0 * b0)) / (k * k * - (4 * a0 * a0 * b0 * b0)) = a0)
      by (field; auto).
    assert (Eb : - (k * k * (4 * a0 * a0 * b0 * b0 * b0)) / (k * k * - (4 * a0 * a0 * b0 * b0)) = b0)
      by (field; auto).
    rewrite Ea, Eb. auto.
  - destruct (Rlt_dec k 0) as [_|Hn]; [| lra].
    replace (- (1)) with (-1) by ring. replace (- (-1)) with 1 by ring.
    rewrite Hp, Hm, !sqrt_fourth, !sqrt_square by nra.
    split; field; auto.
Qed.

Lemma ellipse_parameters_round_trip_witness :
  let e := ellipse_of_fit (fun _ _ => 0) (scale 1 (conic_of_ellipse 5 3 (3 / 10) 1 (- 2))) in
  0 < 3 /\ 3 <= 5 /\ a e = 5 /\ b e = 3 /\ x0 e = 1 /\ y0 e = - 2.
Proof.
  cbv zeta.
  destruct (ellipse_parameters_round_trip (fun _ _ => 0) 5 3 (3 / 10) 1 (- 2) 1
              ltac:(lra) ltac:(lra) ltac:(lra))
    as (Hx & Hy & Hpos & _).
  destruct (Hpos ltac:(lra)) as (Ha & Hb & _).
  split; [lra |]. split; [lra |]. auto.
Defined.

(** The ring of [gen_circle] lies in the plane across its axis: every
    point of the table, the centre included, has the centre's coordinate
    along the axis. *)
Theorem gen_circle_in_plane (center : R * R * R) (r : R) (axis : string) (N : nat) :
  valid_axis axis = true ->
  exists pts,
    gen_circle center r axis (Z.of_nat N) = Returned pts
    /\ forall p, In p pts -> along axis p = along axis center.
Proof.
  intros Hax. rewrite (gen_circle_valid center r axis N Hax).
  eexists. split; [reflexivity |].
  intros p [<- | Hp]; [reflexivity |].
  apply in_map_iff in Hp as (t & <- & _).
  destruct center as [[c0 c1] c2]. unfold along, ring_point.
  destruct (valid_axis_cases axis Hax) as [-> | [-> | ->]]; reflexivity.
Qed.

Lemma gen_circle_in_plane_witness :
  exists pts,
    gen_circle (1, 2, 3) 4 "y" 8 = Returned pts
    /\ forall p, In p pts -> along "y" p = 2.
Proof.
  apply (gen_circle_in_plane (1, 2, 3) 4 "y" 8%nat). reflexivity.
Defined.

Lemma norm3_displacement (p q : R * R * R) :
  norm3 (displacement Rminus p q) = distance p q.
Proof. destruct p as [[px py] pz], q as [[qx qy] qz]. reflexivity. Qed.

(** [gen_circle] followed by [transform_points]: when the evaluator
    returns the generated table as it is, the two arrays of displacements
    are equal, they have one column per ring point, and every column has
    the Euclidean norm [r]. *)
Theorem ring_displacements_have_norm_r
    (transformlist : Type)
    (evaluator : nat -> DataFrame R -> transformlist -> result (DataFrame R))
    (tl : transformlist) (center : R * R * R) (r : R) (axis : string) (N : nat) :
  valid_axis axis = true ->
  0 <= r ->
  (forall pts, evaluator 3%nat pts tl = Returned pts) ->
  exists pts p0,
    gen_circle center r axis (Z.of_nat N) = Returned pts
    /\ transform_points Rminus evaluator pts tl = Returned (p0, p0)
    /\ width p0 = N
    /\ forall i, (i < N)%nat -> exists d, column p0 i = Some d /\ norm3 d = r.
Proof.
  intros Hax Hr Hid. rewrite (gen_circle_valid center r axis N Hax).
  set (rest := map (fun t => ring_point center r axis (t * 2 * PI)) (linspace_samples 0 1 N)).
  assert (Lr : length rest = N)
    by (unfold rest; now rewrite length_map, linspace_samples_length).
  do 2 eexists. split; [reflexivity |].
  unfold transform_points. rewrite Hid.
  cbn [bind column_x column_y column_z map tail_minus_head].
  split; [reflexivity |].
  destruct (displacements_of R Rminus center rest) as [W Col].
  split; [rewrite <- Lr; exact W |].
  intros i Hi. pose proof (Col i) as Ci.
  destruct (nth_error rest i) as [p|] eqn:Ep.
  - eexists. split; [exact Ci |].
    rewrite norm3_displacement.
    apply nth_error_In in Ep. unfold rest in Ep.
    apply in_map_iff in Ep as (t & <- & _).
    rewrite ring_point_distance. now apply Rabs_pos_eq.
  - apply nth_error_None in Ep. lia.
Qed.

Lemma ring_displacements_have_norm_r_witness :
  exists pts p0,
    gen_circle (1, 2, 3) 4 "z" 6 = Returned pts
    /\ transform_points Rminus (fun _ pts (_ : unit) => Returned pts) pts tt = Returned (p0, p0)
    /\ width p0 = 6%nat
    /\ forall i, (i < 6)%nat -> exists d, column p0 i = Some d /\ norm3 d = 4.
Proof.
  apply (ring_displacements_have_norm_r unit (fun _ pts _ => Returned pts) tt
           (1, 2, 3) 4 "z" 6%nat); [reflexivity | lra | reflexivity].
Defined.

(** On the real numbers, the arithmetic of float64 idealised,
    [transform_points] does not see a translation: when the evaluator
    moves every point of a table that is not empty by one vector [d],
    the displacements after it are the displacements before it.  (In
    float64 the sums and differences round, and the two arrays agree up
    to rounding only.) *)
Theorem transform_points_ignores_translation
    (transformlist : Type)
    (evaluator : nat -> DataFrame R -> transformlist -> result (DataFrame R))
    (tl : transformlist) (d c : R * R * R) (rest : DataFrame R) :
  evaluator 3%nat (c :: rest) tl = Returned (map (translate d) (c :: rest)) ->
  exists p0,
    transform_points Rminus evaluator (c :: rest) tl = Returned (p0, p0)
    /\ width p0 = length rest.
Proof.
  intros He. unfold transform_points. rewrite He.
  cbn [bind column_x column_y column_z map tail_minus_head].
  eexists. split.
  - do 2 f_equal. unfold translate.
    rewrite !map_map. cbn [fst snd].
    f_equal; [f_equal |]; apply map_ext; intros p; ring.
  - unfold width. cbn [fst]. now rewrite !length_map.
Qed.

Lemma transform_points_ignores_translation_witness :
  exists p0,
    transform_points Rminus (fun _ pts (_ : unit) => Returned (map (translate (1, 2, 3)) pts))
                     [(0, 0, 0); (1, 0, 0); (0, 1, 0)] tt = Returned (p0, p0)
    /\ width p0 = 2%nat.
Proof.
  apply (transform_points_ignores_translation unit
           (fun _ pts _ => Returned (map (translate (1, 2, 3)) pts)) tt
           (1, 2, 3) (0, 0, 0) [(1, 0, 0); (0, 1, 0)]).
  reflexivity.
Defined.

Section TransformEdges.

Variable num : Type.
Variable sub : num -> num -> num.
Variable transformlist : Type.
Variable evaluator : nat -> DataFrame num -> transformlist -> result (DataFrame num).

(** [transform_points] returns exactly when the evaluator returns and
    neither the given table nor the evaluator's table is empty.  On an
    empty table it fails with [KeyError], there being no row labelled 0;
    a failure of the evaluator is passed on as it is. *)
Theorem transform_points_returns_iff (pts : DataFrame num) (tl : transformlist) :
  (returns (transform_points sub evaluator pts tl) = true
   <-> pts <> [] /\ exists out, evaluator 3%nat pts tl = Returned out /\ out <> [])
  /\ (forall e, evaluator 3%nat pts tl = Raised e ->
                transform_points sub evaluator pts tl = Raised e)
  /\ (forall out, evaluator 3%nat pts tl = Returned out -> pts = [] \/ out = [] ->
                  transform_points sub evaluator pts tl = Raised (KeyError [Fmt (FNum 0)])).
Proof.
  unfold transform_points.
  destruct (evaluator 3%nat pts tl) as [out|e] eqn:He; cbn [bind].
  - destruct pts as [|c rest]; cbn [column_x column_y column_z map tail_minus_head bind].
    + split; [| split]; [| discriminate | reflexivity].
      split; [discriminate |]. now intros [H _].
    + destruct out as [|c' rest']; cbn [column_x column_y column_z map tail_minus_head bind].
      * split; [| split]; [| discriminate | reflexivity].
        split; [discriminate |]. intros [_ (o & Ho & Hne)].
        injection Ho as <-. now elim Hne.
      * split; [| split]; [| discriminate |].
        -- split; [| reflexivity]. intros _. split; [discriminate |].
           eexists. split; [reflexivity | discriminate].
        -- intros o Ho [H|H]; [discriminate |]. injection Ho as <-. discriminate.
  - split; [| split].
    + split; [discriminate |]. intros [_ (o & Ho & _)]. discriminate.
    + intros e' He'. injection He' as <-. reflexivity.
    + discriminate.
Qed.

End TransformEdges.

End FitFacts.

(** ** The two conic fits compared *)

Module FitEigFacts.
Import Fit FitEig.
Local Open Scope R_scope.




















End FitEigFacts.

(** ** Calibration: reading and lookups *)

Module CalibReadFacts.
Import Calib CalibRead.

Lemma slice_until_zero (A : Type) (l : list A) : slice_until l 0 = [].
Proof. reflexivity. Qed.

Lemma slice_until_drop (A : Type) (l : list A) (k : Z) :
  (0 < k)%Z -> slice_until l (-1 * k) = firstn (length l - Z.to_nat k) l.
Proof.
  intros Hk. unfold slice_until.
  replace (-1 * k <? 0)%Z with true by (symmetry; apply Z.ltb_lt; lia).
  f_equal. lia.
Qed.

Lemma lookup_str_app (V : Type) (d d' : list (string * V)) (k : string) :
  lookup_str (d ++ d') k
  = match lookup_str d k with Some v => Some v | None => lookup_str d' k end.
Proof.
  unfold lookup_str. induction d as [|[k' v'] d IH]; cbn; [reflexivity |].
  destruct (k' =? k)%string; [reflexivity | exact IH].
Qed.

Lemma lookup_str_None (V : Type) (d : list (string * V)) (k : string) :
  ~ In k (map fst d) -> lookup_str d k = None.
Proof.
  unfold lookup_str. induction d as [|[k' v'] d IH]; cbn; [reflexivity |].
  intros H. destruct (String.eqb_spec k' k) as [->|Hne]; [now elim H; left |].
  apply IH. intros Hin. apply H. now right.
Qed.

(** A key that the dictionary does not hold is added at its end. *)
Lemma dict_set_new (V : Type) (d : list (string * V)) (k : string) (v : V) :
  ~ In k (map fst d) -> dict_set d k v = d ++ [(k, v)].
Proof.
  induction d as [|[k' v'] d IH]; cbn; [reflexivity |].
  intros H. destruct (String.eqb_spec k' k) as [->|Hne]; [now elim H; left |].
  f_equal. apply IH. intros Hin. apply H. now right.
Qed.

Section ReadingFacts.

Variable read_excel : string -> string -> Z -> result sheet.
Variable fname : string.

Lemma read_loop (sheets : list (string * description)) :
  forall (acc data : list (string * sheet)),
    NoDup (map fst acc ++ names sheets) ->
    fold_left
      (fun acc entry =>
         data <- acc ;;
         df <- read_excel fname (fst entry) (head (snd entry)) ;;
         Returned (dict_set data (name (snd entry)) (rows_until df (-1 * tail (snd entry)))))
      sheets (Returned acc) = Returned data ->
    exists new, data = acc ++ new /\ Forall2 (entry_read read_excel fname) sheets new.
Proof.
  induction sheets as [|entry sheets IH]; intros acc data Hnd Hf.
  - cbn in Hf. injection Hf as <-. exists []. split; [now rewrite app_nil_r | constructor].
  - cbn [fold_left bind] in Hf.
    destruct (read_excel fname (fst entry) (head (snd entry))) as [df|e] eqn:Er.
    + cbn [bind] in Hf. cbn [names map] in Hnd.
      assert (Hnew : ~ In (name (snd entry)) (map fst acc)).
      { intros Hin. apply NoDup_remove_2 in Hnd. apply Hnd.
        apply in_or_app. now left. }
      rewrite (dict_set_new _ acc _ _ Hnew) in Hf.
      destruct (IH (acc ++ [(name (snd entry), rows_until df (-1 * tail (snd entry)))]) data)
        as (new & -> & Hall).
      * rewrite map_app. cbn [map fst]. rewrite <- app_assoc. cbn [app].
        fold (names sheets).
        apply NoDup_remove_1 in Hnd as Hnd1.
        apply NoDup_remove_2 in Hnd as Hnd2.
        clear - Hnd1 Hnd2.
        induction (map fst acc) as [|k ks IHk]; cbn.
        -- constructor; [| exact Hnd1]. intros Hin. apply Hnd2. exact Hin.
        -- cbn in Hnd1, Hnd2. inversion Hnd1 as [|? ? Hk Hks]; subst.
           constructor.
           ++ intros Hin. apply in_app_or in Hin as [Hin | [<- | Hin]].
              ** apply Hk. apply in_or_app. now left.
              ** apply Hnd2. now left.
              ** apply Hk. apply in_or_app. now right.
           ++ apply IHk; [exact Hks |]. intros Hin. apply Hnd2. now right.
      * exact Hf.
      * exists ((name (snd entry), rows_until df (-1 * tail (snd entry))) :: new).
        split; [now rewrite <- app_assoc |].
        constructor; [| exact Hall]. exists df. split; [exact Er | reflexivity].
    + cbn [bind] in Hf. exfalso. clear - Hf.
      induction sheets as [|s ss IHs]; cbn in Hf; [discriminate | auto].
Qed.

Lemma read_loop_raised (sheets : list (string * description)) (e : exn) :
  fold_left
    (fun acc entry =>
       data <- acc ;;
       df <- read_excel fname (fst entry) (head (snd entry)) ;;
       Returned (dict_set data (name (snd entry)) (rows_until df (-1 * tail (snd entry)))))
    sheets (Raised e) = Raised e.
Proof. induction sheets as [|entry sheets IH]; cbn; auto. Qed.

(** The loop fails exactly at the first sheet that cannot be read, with
    the exception of that read. *)
Lemma read_loop_raises (sheets : list (string * description)) (e : exn) :
  forall data : list (string * sheet),
    fold_left
      (fun acc entry =>
         data <- acc ;;
         df <- read_excel fname (fst entry) (head (snd entry)) ;;
         Returned (dict_set data (name (snd entry)) (rows_until df (-1 * tail (snd entry)))))
      sheets (Returned data) = Raised e
    <-> exists before entry after,
          sheets = before ++ entry :: after
          /\ Forall (fun en => returns (read_excel fname (fst en) (head (snd en))) = true) before
          /\ read_excel fname (fst entry) (head (snd entry)) = Raised e.
Proof.
  induction sheets as [|entry sheets IH]; intros data.
  - cbn. split; [discriminate |].
    intros (before & en & after & H & _). now destruct before.
  - cbn [fold_left bind].
    destruct (read_excel fname (fst entry) (head (snd entry))) as [df|e1] eqn:Er; cbn [bind].
    + rewrite IH. split.
      * intros (before & en & after & -> & Hall & Hr).
        exists (entry :: before), en, after. split; [reflexivity |].
        split; [| exact Hr]. constructor; [now rewrite Er | exact Hall].
      * intros (before & en & after & Hs & Hall & Hr).
        destruct before as [|b before]; cbn in Hs; injection Hs as <- ->.
        -- rewrite Er in Hr. discriminate.
        -- exists before, en, after. split; [reflexivity |].
           split; [now inversion Hall | exact Hr].
    + rewrite read_loop_raised. split.
      * intros He. injection He as <-.
        exists [], entry, sheets. repeat split; [constructor | exact Er].
      * intros (before & en & after & Hs & Hall & Hr).
        destruct before as [|b before]; cbn in Hs; injection Hs as <- ->.
        -- rewrite Er in Hr. injection Hr as <-. reflexivity.
        -- inversion Hall as [|? ? Hb _]; subst. rewrite Er in Hb. discriminate.
Qed.

End ReadingFacts.

Lemma lookup_rows_until (df : sheet) (stop : Z) (column : string) :
  lookup_str (rows_until df stop) column
  = option_map (fun col => slice_until col stop) (lookup_str df column).
Proof.
  unfold lookup_str, rows_until. induction df as [|[k col] df IH]; cbn; [reflexivity |].
  destruct (k =? column)%string; [reflexivity | exact IH].
Qed.

Lemma NoDup_default_names : NoDup (names default_sheets).
Proof.
  unfold names, default_sheets. cbn [map snd name].
  repeat constructor; cbn; intuition discriminate.
Qed.

(** What [read_calibration_sheet] returns: one table per entry of
    [sheets] (of the default description when [sheets] is absent or
    empty), in the order of the entries and under the logical names, each
    the table read for that entry and cut at [-1 * tail]; this for
    logical names that are all different.  When the call fails, it fails
    with the exception of the first sheet that could not be read. *)
Theorem read_calibration_sheet_result
    (read_excel : string -> string -> Z -> result sheet) (fname : string)
    (sheets : option (list (string * description))) :
  let used := match sheets with
              | None | Some [] => default_sheets
              | Some s => s
              end in
  NoDup (names used) ->
  (forall data,
      read_calibration_sheet read_excel fname sheets = Returned data ->
      Forall2 (entry_read read_excel fname) used data)
  /\ (forall e,
        read_calibration_sheet read_excel fname sheets = Raised e
        <-> exists before entry after,
              used = before ++ entry :: after
              /\ Forall (fun en => returns (read_excel fname (fst en) (head (snd en))) = true)
                        before
              /\ read_excel fname (fst entry) (head (snd entry)) = Raised e).
Proof.
  intros used Hnd. unfold read_calibration_sheet. fold used. split.
  - intros data Hf.
    destruct (read_loop read_excel fname used [] data Hnd Hf) as (new & -> & Hall).
    exact Hall.
  - intros e. apply read_loop_raises.
Qed.

Lemma read_calibration_sheet_result_witness :
  NoDup (names default_sheets)
  /\ exists data,
       read_calibration_sheet sample_read_excel "calibration.xls" None = Returned data
       /\ Forall2 (entry_read sample_read_excel "calibration.xls") default_sheets data.
Proof.
  split; [exact NoDup_default_names |].
  eexists. split; [reflexivity |].
  destruct (read_calibration_sheet_result sample_read_excel "calibration.xls" None
              NoDup_default_names) as [H _].
  apply H. reflexivity.
Defined.

(** The tables of a [Calibration] that was constructed: the eight
    default entries, read and cut. *)
Lemma Calibration_new_data
    (read_excel : string -> string -> Z -> result sheet) (fname : string) (cal : Calibration) :
  Calibration_new read_excel fname = Returned cal ->
  __sheets cal = sheets_table
  /\ Forall2 (entry_read read_excel fname) default_sheets (data cal).
Proof.
  unfold Calibration_new. intros H.
  destruct (read_calibration_sheet read_excel fname None) as [read|e] eqn:Er;
    cbn [bind] in H; [| discriminate].
  injection H as <-. split; [reflexivity |]. cbn [data __init__].
  unfold read_calibration_sheet in Er.
  destruct (read_loop read_excel fname default_sheets [] read NoDup_default_names Er)
    as (new & -> & Hall).
  exact Hall.
Qed.

Ltac invert_entries H :=
  unfold default_sheets in H;
  repeat match type of H with
         | Forall2 _ (_ :: _) _ =>
             let x := fresh "entry" in
             let l := fresh "rest" in
             let Hx := fresh "Hentry" in
             let Hl := fresh "Hrest" in
             inversion H as [| ? x ? l Hx Hl]; subst; clear H; rename Hl into H
         | Forall2 _ [] _ => inversion H; subst; clear H
         end.

(** The sheet of the thermometer is listed with [tail = 0], and
    [df[:-1*0]] is [df[:0]]: a [Calibration] that was constructed holds
    no row of it, whatever the workbook contains.  [get_thermometer_vals]
    returns an empty column, or [None] when the sheet has no such
    column; it never returns a value. *)
Theorem thermometer_sheet_is_empty
    (read_excel : string -> string -> Z -> result sheet) (fname : string) (cal : Calibration) :
  Calibration_new read_excel fname = Returned cal ->
  (exists df, read_excel fname "CMRI LC Values"%string 3%Z = Returned df
              /\ lookup_str (data cal) "CMRI_LC" = Some (map (fun c => (fst c, [])) df))
  /\ (get_thermometer_vals cal = Returned (Some [])
      \/ get_thermometer_vals cal = Returned None).
Proof.
  intros H. apply Calibration_new_data in H as [_ H].
  destruct cal as [tables table]. cbn [data] in *.
  invert_entries H.
  repeat match goal with
         | Hx : entry_read _ _ _ _ |- _ => destruct Hx as (? & ? & ->)
         end.
  cbn [fst snd head name tail] in *.
  match goal with
  | Hr : read_excel fname "CMRI LC Values"%string _ = Returned ?df |- _ =>
      rename df into lc; rename Hr into Hlc
  end.
  split.
  - exists lc. split; [exact Hlc | reflexivity].
  - unfold get_thermometer_vals, get_column. cbn [data].
    match goal with
    | |- context [lookup_str ?d "CMRI_LC"] =>
        change (lookup_str d "CMRI_LC") with (Some (rows_until lc 0))
    end.
    cbv beta iota.
    rewrite (lookup_rows_until lc 0 "Measured Transition Temperature (C)").
    destruct (lookup_str lc "Measured Transition Temperature (C)"); cbn [option_map]; auto.
Qed.

Lemma thermometer_sheet_is_empty_witness :
  exists cal,
    Calibration_new sample_read_excel "calibration.xls" = Returned cal
    /\ lookup_str sample_sheet "Measured Transition Temperature (C)" = Some [17; 18; 19; 20]%Q
    /\ get_thermometer_vals cal = Returned (Some []).
Proof.
  eexists. split; [reflexivity |]. split; [reflexivity |].
  destruct (thermometer_sheet_is_empty sample_read_excel "calibration.xls" _ eq_refl)
    as [_ [H | H]]; [exact H | discriminate H].
Defined.

(** The concentrations of a [Calibration] that was constructed are the
    column [Concentration (mM)] of the 1.5 T sheet (NiCl for [get_T1_conc],
    MnCl for [get_T2_conc]) without its last two entries, the footer rows;
    a sheet without that column makes the call fail with
    [AttributeError]. *)
Theorem concentrations_drop_footer
    (read_excel : string -> string -> Z -> result sheet) (fname : string) (cal : Calibration) :
  Calibration_new read_excel fname = Returned cal ->
  (exists df, read_excel fname "NiCl Solutions @ 1.5T"%string 3%Z = Returned df
              /\ get_T1_conc cal
                 = match lookup_str df "Concentration (mM)" with
                   | Some col => Returned (firstn (length col - 2) col)
                   | None => Raised (AttributeError "'NoneType' object has no attribute 'values'")
                   end)
  /\ (exists df, read_excel fname "MnCl Solutions @ 1.5T"%string 3%Z = Returned df
                 /\ get_T2_conc cal
                    = match lookup_str df "Concentration (mM)" with
                      | Some col => Returned (firstn (length col - 2) col)
                      | None => Raised (AttributeError "'NoneType' object has no attribute 'values'")
                      end).
Proof.
  intros H. apply Calibration_new_data in H as [_ H].
  destruct cal as [tables table]. cbn [data] in *.
  invert_entries H.
  repeat match goal with
         | Hx : entry_read _ _ _ _ |- _ => destruct Hx as (? & ? & ->)
         end.
  cbn [fst snd head name tail] in *.
  split.
  - match goal with
    | Hr : read_excel fname "NiCl Solutions @ 1.5T"%string _ = Returned ?df |- _ =>
        exists df; split; [exact Hr |];
        unfold get_T1_conc, get_column; cbn [data];
        match goal with
        | |- context [lookup_str ?d "NiCl_15T"] =>
            change (lookup_str d "NiCl_15T") with (Some (rows_until df (-1 * 2)))
        end;
        cbv beta iota; cbn [bind];
        rewrite (lookup_rows_until df (-1 * 2) "Concentration (mM)");
        destruct (lookup_str df "Concentration (mM)") as [col|]; cbn [option_map values];
        [now rewrite (slice_until_drop _ col 2) by lia | reflexivity]
    end.
  - match goal with
    | Hr : read_excel fname "MnCl Solutions @ 1.5T"%string _ = Returned ?df |- _ =>
        exists df; split; [exact Hr |];
        unfold get_T2_conc, get_column; cbn [data];
        match goal with
        | |- context [lookup_str ?d "MnCl_15T"] =>
            change (lookup_str d "MnCl_15T") with (Some (rows_until df (-1 * 2)))
        end;
        cbv beta iota; cbn [bind];
        rewrite (lookup_rows_until df (-1 * 2) "Concentration (mM)");
        destruct (lookup_str df "Concentration (mM)") as [col|]; cbn [option_map values];
        [now rewrite (slice_until_drop _ col 2) by lia | reflexivity]
    end.
Qed.

Lemma concentrations_drop_footer_witness :
  exists cal,
    Calibration_new sample_read_excel "calibration.xls" = Returned cal
    /\ lookup_str sample_sheet "Concentration (mM)" = Some [1; 2; 1; 2]%Q
    /\ get_T1_conc cal = Returned [1; 2]%Q.
Proof.
  eexists. split; [reflexivity |]. split; [reflexivity |].
  destruct (concentrations_drop_footer sample_read_excel "calibration.xls" _ eq_refl)
    as [(df & Hdf & H) _].
  injection Hdf as <-. exact H.
Defined.

(** For a mimic and a field strength of the table whose sheet is loaded
    and has the two columns, [_get_vals] returns the values of the rows
    whose temperature is the requested one, and nothing else; for a
    temperature that no row has it returns the empty list, not an error. *)
Theorem get_vals_known_sheet
    (self : Calibration) (temp : Q) (mimics column : string) (B0 : Q)
    (sheet_key : string) (df : sheet) (temps vals : list Q) :
  sheet_name self B0 mimics = Some sheet_key ->
  lookup_str (data self) sheet_key = Some df ->
  lookup_str df "Temperature (C)" = Some temps ->
  lookup_str df (column ++ " (ms)") = Some vals ->
  exists found,
    _get_vals self temp mimics column B0 = Returned found
    /\ (forall v, In v found <-> exists t, In (t, v) (combine temps vals) /\ (t == temp)%Q)
    /\ (length found <= length vals)%nat
    /\ ((forall t, In t temps -> ~ (t == temp)%Q) -> found = []).
Proof.
  intros Hs Hd Ht Hv. unfold _get_vals. rewrite Hs, Hd, Ht, Hv.
  eexists. split; [reflexivity |].
  split; [| split].
  - intros v. rewrite in_map_iff. split.
    + intros ([t w] & <- & Hin). apply filter_In in Hin as [Hin Heq].
      exists t. split; [exact Hin |]. now apply Qeq_bool_iff.
    + intros (t & Hin & Heq). exists (t, v). split; [reflexivity |].
      apply filter_In. split; [exact Hin |]. now apply Qeq_bool_iff.
  - rewrite length_map.
    etransitivity; [apply filter_length_le |].
    rewrite length_combine. apply Nat.le_min_r.
  - intros Hno.
    destruct (filter _ _) as [|[t w] rest] eqn:Ef; [reflexivity |].
    exfalso.
    assert (Hin : In (t, w) (filter (fun tv => Qeq_bool (fst tv) temp) (combine temps vals)))
      by (rewrite Ef; now left).
    apply filter_In in Hin as [Hin Heq].
    apply (Hno t); [now apply in_combine_l in Hin | now apply Qeq_bool_iff].
Qed.

Lemma get_vals_known_sheet_witness :
  let self := __init__ [("NiCl_3T"%string, sample_sheet)] in
  _get_vals self 22 "T1" "T1" 3 = Returned [110; 210]%Q
  /\ _get_vals self 24 "T1" "T1" 3 = Returned [].
Proof.
  cbv zeta. split.
  - destruct (get_vals_known_sheet (__init__ [("NiCl_3T"%string, sample_sheet)]) 22 "T1" "T1" 3
                "NiCl_3T" sample_sheet [20; 20; 22; 22]%Q [100; 200; 110; 210]%Q
                eq_refl eq_refl eq_refl eq_refl) as (found & Hf & _).
    rewrite Hf. injection Hf as <-. reflexivity.
  - destruct (get_vals_known_sheet (__init__ [("NiCl_3T"%string, sample_sheet)]) 24 "T1" "T1" 3
                "NiCl_3T" sample_sheet [20; 20; 22; 22]%Q [100; 200; 110; 210]%Q
                eq_refl eq_refl eq_refl eq_refl) as (found & Hf & _ & _ & He).
    rewrite Hf. f_equal. apply He.
    intros t Hin Heq. cbn in Hin.
    destruct Hin as [<- | [<- | [<- | [<- | []]]]]; discriminate Heq.
Defined.

End CalibReadFacts.
